(** * blog-check: DNS propagation and connectivity audit

    A shallow embedding of [blog-check-template.py] (v4.4) and the
    properties of its check sequence.

    Layout:
    - [PyStr]   : the [str] methods the script uses ([strip], [splitlines],
                  [split], [startswith], the anchored literal regex);
    - [Script]  : the script itself, in a state-and-exception monad over an
                  explicit model of the outside world;
    - theorems about the stages and about [main].

    Strings are sequences of 8-bit characters; a Python [str] is held as
    the bytes of its UTF-8 encoding.  Whitespace and line boundaries are
    classified as Python does for code points below 128, which covers
    what [dig], [ping] and [curl] print. *)

From Stdlib Require Import ZArith List String Ascii Bool Arith Lia.
Import ListNotations.
Open Scope string_scope.

(* ================================================================= *)
(** ** Python string methods *)

Module PyStr.

Definition chr (n : nat) : ascii := ascii_of_nat n.

Definition LF : ascii := chr 10.
Definition CR : ascii := chr 13.

(** The one-character string ["\n"]. *)
Definition nl : string := String LF "".

(** [str.isspace] on one character: TAB, LF, VT, FF, CR, FS, GS, RS, US
    and the space. *)
Definition is_space (c : ascii) : bool :=
  let n := nat_of_ascii c in
  (((9 <=? n) && (n <=? 13)) || ((28 <=? n) && (n <=? 31)) || (n =? 32))%nat.

(** The characters [str.splitlines] breaks at: LF, VT, FF, CR, FS, GS, RS
    (CR LF counts once, see [splitlines_from]). *)
Definition is_linebreak (c : ascii) : bool :=
  let n := nat_of_ascii c in
  (((10 <=? n) && (n <=? 13)) || ((28 <=? n) && (n <=? 30)))%nat.

(** [s.lstrip()] *)
Fixpoint lstrip (s : string) : string :=
  match s with
  | String c r => if is_space c then lstrip r else s
  | EmptyString => EmptyString
  end.

(** [s.rstrip()]: a character is dropped when it is white and everything
    after it has been dropped. *)
Fixpoint rstrip (s : string) : string :=
  match s with
  | String c r =>
      match rstrip r with
      | EmptyString => if is_space c then EmptyString else String c EmptyString
      | r' => String c r'
      end
  | EmptyString => EmptyString
  end.

(** [s.strip()] *)
Definition strip (s : string) : string := rstrip (lstrip s).

(** [s.splitlines()], with [cur] the line read so far.  A final line
    without terminator is kept when it is not empty; a terminator at the
    very end opens no further line. *)
Fixpoint splitlines_from (cur s : string) : list string :=
  match s with
  | EmptyString => match cur with EmptyString => [] | _ => [cur] end
  | String c r =>
      if is_linebreak c then
        match r with
        | String c' r' =>
            if Ascii.eqb c CR && Ascii.eqb c' LF
            then cur :: splitlines_from EmptyString r'
            else cur :: splitlines_from EmptyString r
        | EmptyString => [cur]
        end
      else splitlines_from (cur ++ String c EmptyString) r
  end.

Definition splitlines (s : string) : list string :=
  splitlines_from EmptyString s.

(** [s.split()] (no separator given): the maximal runs of non-white
    characters, [cur] being the run read so far. *)
Fixpoint split_from (cur s : string) : list string :=
  match s with
  | EmptyString => match cur with EmptyString => [] | _ => [cur] end
  | String c r =>
      if is_space c then
        match cur with
        | EmptyString => split_from EmptyString r
        | _ => cur :: split_from EmptyString r
        end
      else split_from (cur ++ String c EmptyString) r
  end.

Definition split (s : string) : list string := split_from EmptyString s.

(** [s.startswith(p)] *)
Definition startswith (s p : string) : bool := String.prefix p s.

(** [s.endswith(p)]; the script does not call it, the statements about
    the nameserver check do. *)
Fixpoint endswith (s p : string) : bool :=
  String.eqb s p ||
  match s with
  | String _ r => endswith r p
  | EmptyString => false
  end.

(** What is left of [s] after the literal [lit], when [s] starts with it. *)
Fixpoint match_literal (lit s : string) : option string :=
  match lit, s with
  | EmptyString, _ => Some s
  | String a lit', String b s' =>
      if Ascii.eqb a b then match_literal lit' s' else None
  | String _ _, EmptyString => None
  end.

(** The regex anchor [$] (no MULTILINE flag): the end of the string, or
    just before a line feed that ends the string. *)
Definition at_dollar (rest : string) : bool :=
  String.eqb rest EmptyString || String.eqb rest nl.

(** [re.search(re.escape(lit) + "$", s)] as a truth value: some position
    of [s] where [lit] matches literally and [$] matches after it. *)
Fixpoint re_search_literal_eol (lit s : string) : bool :=
  match match_literal lit s with
  | Some rest => at_dollar rest
  | None => false
  end ||
  match s with
  | String _ r => re_search_literal_eol lit r
  | EmptyString => false
  end.

(** *** Text mode of [subprocess] ([text=True]) *)

Definition in_range (lo hi : nat) (c : ascii) : bool :=
  let n := nat_of_ascii c in ((lo <=? n) && (n <=? hi))%nat.

(** A continuation byte of UTF-8. *)
Definition is_cont (c : ascii) : bool := in_range 128 191 c.

(** The second byte of a three-byte sequence led by [b0]: no overlong
    form after E0, no surrogate after ED. *)
Definition second_of_three (b0 b1 : ascii) : bool :=
  if in_range 224 224 b0 then in_range 160 191 b1
  else if in_range 237 237 b0 then in_range 128 159 b1
  else is_cont b1.

(** The second byte of a four-byte sequence led by [b0]: no overlong
    form after F0, nothing above U+10FFFF after F4. *)
Definition second_of_four (b0 b1 : ascii) : bool :=
  if in_range 240 240 b0 then in_range 144 191 b1
  else if in_range 244 244 b0 then in_range 128 143 b1
  else is_cont b1.

(** The bytes are well-formed UTF-8, as the strict decoder requires. *)
Fixpoint utf8_valid (s : string) : bool :=
  match s with
  | EmptyString => true
  | String b0 r =>
      if in_range 0 127 b0 then utf8_valid r
      else if in_range 194 223 b0 then
        match r with
        | String b1 r1 => is_cont b1 && utf8_valid r1
        | _ => false
        end
      else if in_range 224 239 b0 then
        match r with
        | String b1 (String b2 r2) =>
            second_of_three b0 b1 && is_cont b2 && utf8_valid r2
        | _ => false
        end
      else if in_range 240 244 b0 then
        match r with
        | String b1 (String b2 (String b3 r3)) =>
            second_of_four b0 b1 && is_cont b2 && is_cont b3 && utf8_valid r3
        | _ => false
        end
      else false
  end.

(** Universal newlines on reading: CR LF and a lone CR become LF. *)
Fixpoint universal_newlines (s : string) : string :=
  match s with
  | EmptyString => EmptyString
  | String c r =>
      if Ascii.eqb c CR then
        match r with
        | String c' r' =>
            if Ascii.eqb c' LF
            then String LF (universal_newlines r')
            else String LF (universal_newlines r)
        | EmptyString => String LF EmptyString
        end
      else String c (universal_newlines r)
  end.

(** What text mode makes of the bytes a command wrote: [None] stands for
    [UnicodeDecodeError].  The encoding is taken to be UTF-8. *)
Definition decode_text (raw : string) : option string :=
  if utf8_valid raw then Some (universal_newlines raw) else None.


(** [s] holds no character on which [splitlines] breaks. *)
Fixpoint no_linebreak (s : string) : bool :=
  match s with
  | String c r => negb (is_linebreak c) && no_linebreak r
  | EmptyString => true
  end.

End PyStr.

Import PyStr.

(* ================================================================= *)
(** ** The script *)

Module Script.

(** *** Configuration (module-level constants of the script) *)

Definition CNAME_1_HOST : string := "abcd1234".
Definition CNAME_1_TARGET : string := "gv-xxxxxxx.dv.googlehosted.com".
Definition WWW_TARGET : string := "ghs.google.com".
Definition BLOG_SUBDOMAIN : string := "blog".
Definition BLOGSPOT_DOMAIN : string := "example.blogspot.com".
Definition CUSTOM_DOMAIN : string := "example.com".

Definition RESOLVERS : list string := ["8.8.8.8"; "1.1.1.1"; "9.9.9.9"].
Definition VERSION : string := "4.4".
Definition TEST_HOST : string := "www.google.com".

Definition BLOGGER_IPS : list string :=
  ["216.239.32.21"; "216.239.34.21"; "216.239.36.21"; "216.239.38.21"].
Definition FORWARD_IPS : list string :=
  ["198.49.23.144"; "198.49.23.145"; "198.185.159.144"; "198.185.159.145"].

(** *** The outside world

    Every contact with the outside is one [Call].  The world answers a
    call from its arguments and from the number of calls made before it,
    so the same command may be answered differently the second time. *)

Inductive Call : Type :=
| Which (cmd : string)                (* shutil.which(cmd) *)
| CheckOutput (argv : list string)    (* subprocess.check_output(argv, ...) *)
| SubCall (argv : list string).       (* subprocess.call(argv, ...) *)

Record World : Type := mkWorld {
  (** is the tool on the PATH *)
  which_at : nat -> string -> bool;
  (** the bytes written to standard output; [None] when the command
      cannot be run to a zero status ([check_output] then raises: the
      tool is missing or ends with a non-zero status) *)
  check_output_at : nat -> list string -> option string;
  (** return code; [None] when [subprocess.call] raises [OSError] *)
  call_at : nat -> list string -> option Z
}.

(** *** What the script prints

    A line keeps the parts of its f-string apart: [Repr l] stands for a
    list of strings formatted by Python, [Num n] for an integer. *)

Inductive Frag : Type :=
| Txt (s : string)
| Num (n : nat)
| Repr (l : list string).

(** [OK] and [FAIL] are the two lines of [print_status], [WARN] the line
    of [print_warning], [PLAIN] a bare [print]. *)
Inductive Kind : Type := OK | FAIL | WARN | PLAIN.

Record Out : Type := mkOut { kind : Kind; text : list Frag }.

Definition is_fail (o : Out) : bool :=
  match kind o with FAIL => true | _ => false end.

Definition is_warn (o : Out) : bool :=
  match kind o with WARN => true | _ => false end.

(** *** Process state

    [exit_code] and [last_headers] are the two globals of the script.
    [stdout] and [calls] record what was printed and what was invoked,
    oldest first; [trail] records every value assigned to [exit_code]. *)

Record State : Type := mkState {
  exit_code : Z;
  last_headers : list string;
  stdout : list Out;
  calls : list Call;
  trail : list Z
}.

(** The globals as the module initialises them. *)
Definition init : State := mkState 0 [] [] [] [].

(** *** The monad: state, [sys.exit] and uncaught exceptions *)

Inductive Exn : Type := IndexError | OSError.

Inductive Outcome (A : Type) : Type :=
| Ret (a : A)
| Exit (code : Z)          (* SystemExit(code) *)
| Raise (e : Exn).

Arguments Ret {A} a.
Arguments Exit {A} code.
Arguments Raise {A} e.

Definition M (A : Type) : Type := State -> Outcome A * State.

Definition ret {A} (a : A) : M A := fun s => (Ret a, s).

Definition bind {A B} (m : M A) (k : A -> M B) : M B :=
  fun s =>
    match m s with
    | (Ret a, s') => k a s'
    | (Exit c, s') => (Exit c, s')
    | (Raise e, s') => (Raise e, s')
    end.

Declare Scope py_scope.
Delimit Scope py_scope with py.
Notation "x <- m ;; k" := (bind m (fun x => k))
  (at level 61, m at next level, right associativity) : py_scope.
Notation "m ;; k" := (bind m (fun _ => k))
  (at level 61, right associativity) : py_scope.
Open Scope py_scope.

Definition raise {A} (e : Exn) : M A := fun s => (Raise e, s).

(** [if c: body] *)
Definition when (c : bool) (body : M unit) : M unit :=
  if c then body else ret tt.

(** [for x in l: body(x)] *)
Fixpoint for_each {A} (l : list A) (body : A -> M unit) : M unit :=
  match l with
  | [] => ret tt
  | x :: r => body x ;; for_each r body
  end.

(** [l[i]] *)
Definition getitem {A} (l : list A) (i : nat) : M A :=
  match nth_error l i with
  | Some x => ret x
  | None => raise IndexError
  end.

(** Truth value of a string and of a list. *)
Definition truthy (s : string) : bool := negb (String.eqb s "").
Definition nonempty {A} (l : list A) : bool :=
  match l with [] => false | _ => true end.

(** [a or b] on lists *)
Definition list_or {A} (a b : list A) : list A :=
  if nonempty a then a else b.

(** [x in l] on strings *)
Definition contains (l : list string) (x : string) : bool :=
  existsb (String.eqb x) l.

(** The exit status the operating system sees: the argument of
    [sys.exit]; 1 after an uncaught exception. *)
Definition process_status {A} (o : Outcome A) : Z :=
  match o with
  | Ret _ => 0
  | Exit c => c
  | Raise _ => 1
  end.

Section Program.

Variable w : World.

Definition tick (s : State) : nat := List.length (calls s).

Definition log_call (c : Call) (s : State) : State :=
  mkState (exit_code s) (last_headers s) (stdout s) (calls s ++ [c])%list (trail s).

(** *** Primitives *)

Definition print (k : Kind) (t : list Frag) : M unit :=
  fun s =>
    (Ret tt,
     mkState (exit_code s) (last_headers s) (stdout s ++ [mkOut k t])%list
             (calls s) (trail s)).

(** [exit_code |= b] *)
Definition or_exit_code (b : bool) : M unit :=
  fun s =>
    let v := Z.lor (exit_code s) (Z.b2z b) in
    (Ret tt, mkState v (last_headers s) (stdout s) (calls s) (trail s ++ [v])%list).

(** [last_headers = h] *)
Definition set_last_headers (h : list string) : M unit :=
  fun s =>
    (Ret tt, mkState (exit_code s) h (stdout s) (calls s) (trail s)).

Definition get_last_headers : M (list string) :=
  fun s => (Ret (last_headers s), s).

(** [sys.exit(exit_code)] *)
Definition sys_exit {A} : M A :=
  fun s => (Exit (exit_code s), s).

(** [shutil.which(cmd)] as a truth value *)
Definition which (cmd : string) : M bool :=
  fun s => (Ret (which_at w (tick s) cmd), log_call (Which cmd) s).

(** What [subprocess.check_output(argv, stderr=DEVNULL, text=True)]
    returns when it is call number [t]; [None] when it raises, because
    the command failed or because its output cannot be decoded. *)
Definition captured_text (t : nat) (argv : list string) : option string :=
  match check_output_at w t argv with
  | Some raw => decode_text raw
  | None => None
  end.

Definition check_output (argv : list string) : M (option string) :=
  fun s => (Ret (captured_text (tick s) argv), log_call (CheckOutput argv) s).

Definition subprocess_call (argv : list string) : M Z :=
  fun s =>
    match call_at w (tick s) argv with
    | Some rc => (Ret rc, log_call (SubCall argv) s)
    | None => (Raise OSError, log_call (SubCall argv) s)
    end.

(** *** The functions of the script *)

Definition print_status (ok : bool) (msg : list Frag) : M bool :=
  print (if ok then OK else FAIL) msg ;;
  ret (negb ok).

Definition print_warning (msg : list Frag) : M unit :=
  print WARN msg.

Definition run (cmd : list string) : M string :=
  o <- check_output cmd ;;
  ret (match o with Some out => strip out | None => "" end).

(** The command line of [dig]. *)
Definition dig_args (name rtype : string) (resolver : option string)
  : list string :=
  let args := ["dig"; "+short"; "-t"; rtype; name] in
  match resolver with
  | Some r => if truthy r then (args ++ [("@" ++ r)%string])%list else args
  | None => args
  end.

Definition dig (name rtype : string) (resolver : option string)
  : M (list string) :=
  out <- run (dig_args name rtype resolver) ;;
  ret (splitlines out).

Definition ping_args (ip : string) : list string :=
  ["ping"; "-c1"; "-W1"; ip].

Definition ping (ip : string) : M bool :=
  rc <- subprocess_call (ping_args ip) ;;
  ret (Z.eqb rc 0).

Definition curl_status_args (url : string) : list string :=
  ["curl"; "-s"; "-o"; "/dev/null"; "-w"; "%{http_code}"; url].

Definition curl_status (url : string) : M string :=
  run (curl_status_args url).

Definition curl_headers_args (url : string) : list string :=
  ["curl"; "-sI"; "--max-time"; "5"; url].

Definition curl_headers (url : string) : M (list string) :=
  out <- run (curl_headers_args url) ;;
  ret (splitlines out).

Definition self_test : M unit :=
  print PLAIN [Txt (nl ++ "===== blog-check.py v" ++ VERSION ++ " — Self‑Test =====")] ;;
  has_dig <- which "dig" ;;
  when (negb has_dig)
    (b <- print_status false [Txt "dig missing"] ;;
     or_exit_code b ;;
     sys_exit) ;;
  (* ip = dig(TEST_HOST)[0] if dig(TEST_HOST) else '' *)
  probe <- dig TEST_HOST "A" None ;;
  ip <- (if nonempty probe
         then (answer <- dig TEST_HOST "A" None ;; getitem answer 0)
         else ret "") ;;
  b <- print_status (truthy ip)
         [Txt "DNS resolves "; Txt TEST_HOST; Txt " → "; Txt ip] ;;
  or_exit_code b ;;
  (* if not ip or not ping(ip): *)
  unreachable <- (if negb (truthy ip) then ret true
                  else (p <- ping ip ;; ret (negb p))) ;;
  when unreachable
    (b <- print_status false [Txt "ping failed"] ;;
     or_exit_code b ;;
     sys_exit) ;;
  print_status true [Txt "ping OK"] ;;
  status <- curl_status ("https://" ++ TEST_HOST) ;;
  when (negb (String.eqb status "200"))
    (b <- print_status false [Txt "HTTPS status "; Txt status] ;;
     or_exit_code b ;;
     sys_exit) ;;
  print_status true [Txt "HTTPS OK"] ;;
  print PLAIN [Txt "✔ Self‑tests passed"].

Definition nameserver_sanity : M (list string) :=
  print PLAIN [Txt (nl ++ "===== Nameserver Sanity =====")] ;;
  ns <- dig CUSTOM_DOMAIN "NS" None ;;
  let glue := existsb (re_search_literal_eol CUSTOM_DOMAIN) ns in
  (if glue
   then print_warning [Txt "Glue-style NS detected: "; Repr ns]
   else (print_status true [Txt "Nameservers correct"] ;; ret tt)) ;;
  ret ns.

(** [sum((dig(fqdn,'CNAME',r) or [''])[0] == cname[0] for r in rs)] *)
Fixpoint count_matching (fqdn : string) (cname rs : list string) : M nat :=
  match rs with
  | [] => ret 0
  | r :: rest =>
      a <- dig fqdn "CNAME" (Some r) ;;
      x <- getitem (list_or a [""]) 0 ;;
      c0 <- getitem cname 0 ;;
      n <- count_matching fqdn cname rest ;;
      ret ((if String.eqb x c0 then 1 else 0) + n)
  end.

(** The body of the loop of [dns_audit]; [continue] ends the body. *)
Definition audit_host (ns_list : list string) (p : string * string) : M unit :=
  let (host, expected) := p in
  let fqdn := host ++ "." ++ CUSTOM_DOMAIN in
  print PLAIN [Txt (nl ++ "── "); Txt fqdn; Txt " ──"] ;;
  cname <- dig fqdn "CNAME" None ;;
  if negb (nonempty cname) then
    b <- print_status false
           [Txt "Missing CNAME — expected "; Txt host; Txt "→"; Txt expected] ;;
    or_exit_code b
  else
    c0 <- getitem cname 0 ;;
    print PLAIN [Txt "CNAME → "; Txt c0] ;;
    when (String.eqb host CNAME_1_HOST)
      (a <- dig fqdn "A" None ;;
       if nonempty a
       then print_warning
              [Txt "Verification CNAME resolves to A-record — NXDOMAIN expected"]
       else (print_status true [Txt "Verification CNAME NXDOMAIN on A lookup"] ;;
             ret tt)) ;;
    pub <- count_matching fqdn cname RESOLVERS ;;
    auth <- count_matching fqdn cname ns_list ;;
    print PLAIN [Txt "Propagation → public "; Num pub; Txt "/";
                 Num (List.length RESOLVERS); Txt " | authoritative "; Num auth;
                 Txt "/"; Num (List.length ns_list)].

Definition dns_audit (ns_list : list string) : M unit :=
  print PLAIN [Txt (nl ++ "===== DNS Audit =====")] ;;
  for_each [("www", WWW_TARGET); (BLOG_SUBDOMAIN, BLOGSPOT_DOMAIN);
            (CNAME_1_HOST, CNAME_1_TARGET)]
           (audit_host ns_list).

Definition root_a_record_check : M string :=
  print PLAIN [Txt (nl ++ "===== Root A-record Presence & Forwarding =====")] ;;
  root_ips <- dig CUSTOM_DOMAIN "A" None ;;
  if forallb (contains root_ips) BLOGGER_IPS then
    print_status true [Txt "All Blogger A-records present"] ;;
    ret "blogger"
  else if forallb (contains root_ips) FORWARD_IPS then
    print_warning
      [Txt "Registrar DNS‑forwarding detected — recommend switching to Blogger A‑records"] ;;
    print_status true
      [Txt "Registrar DNS‑forwarding — redirect handled externally"] ;;
    ret "registrar"
  else
    b <- print_status false [Txt "A-record misconfigured — found "; Repr root_ips] ;;
    or_exit_code b ;;
    ret "invalid".

(** [next((l.split()[1] for l in hs if l.startswith('Location:')), '')] *)
Fixpoint next_location (hs : list string) : M string :=
  match hs with
  | [] => ret ""
  | l :: rest =>
      if startswith l "Location:" then getitem (split l) 1
      else next_location rest
  end.

Definition redirect_check (mode : string) : M unit :=
  when (String.eqb mode "blogger")
    (h <- curl_headers ("https://" ++ CUSTOM_DOMAIN) ;;
     set_last_headers h ;;
     hs <- get_last_headers ;;
     status <- (if nonempty hs
                then (l0 <- getitem hs 0 ;; getitem (split l0) 1)
                else ret "") ;;
     hs <- get_last_headers ;;
     location <- next_location hs ;;
     b <- print_status
            (String.eqb status "301" &&
             String.eqb location ("https://www." ++ CUSTOM_DOMAIN ++ "/"))
            [Txt "HTTP 301 → www"] ;;
     or_exit_code b).

Definition https_status : M unit :=
  print PLAIN [Txt (nl ++ "===== Blogger HTTPS Status =====")] ;;
  st <- curl_status ("https://www." ++ CUSTOM_DOMAIN) ;;
  b <- print_status (String.eqb st "200") [Txt "HTTPS enabled"] ;;
  or_exit_code b ;;
  st <- curl_status ("http://www." ++ CUSTOM_DOMAIN) ;;
  b <- print_status (String.eqb st "301") [Txt "HTTP→HTTPS redirect enabled"] ;;
  or_exit_code b.

Definition advanced_diagnostics : M unit :=
  t <- which "traceroute" ;;
  when t
    (print PLAIN [Txt (nl ++ "===== ADVANCED: Traceroute =====")] ;;
     subprocess_call ["traceroute"; "-m4"; CUSTOM_DOMAIN] ;;
     ret tt) ;;
  f <- which "subfinder" ;;
  when f
    (print PLAIN [Txt (nl ++ "===== ADVANCED: Subdomain Enumeration =====")] ;;
     subprocess_call ["subfinder"; "-silent"; "-d"; CUSTOM_DOMAIN] ;;
     ret tt).

Definition debug_info : M unit :=
  print PLAIN [Txt (nl ++ "===== DEBUG =====")] ;;
  subprocess_call ["dig"; "+trace"; CUSTOM_DOMAIN] ;;
  hs <- get_last_headers ;;
  when (nonempty hs) (print PLAIN [Txt (String.concat nl hs)]).

(** [main], after [argparse] has read the two flags. *)
Definition main (advanced debug : bool) : M unit :=
  self_test ;;
  ns_list <- nameserver_sanity ;;
  dns_audit ns_list ;;
  mode <- root_a_record_check ;;
  redirect_check mode ;;
  https_status ;;
  when advanced advanced_diagnostics ;;
  when debug debug_info ;;
  sys_exit.

(** *** What the world answers, read off without running anything

    [run_output t cmd] is what [run cmd] returns when it is call number
    [t]; [dig_lines] and [headers_lines] likewise for [dig] and
    [curl_headers]. *)

Definition run_output (t : nat) (cmd : list string) : string :=
  match captured_text t cmd with
  | Some out => strip out
  | None => ""
  end.

Definition dig_lines (t : nat) (name rtype : string) (resolver : option string)
  : list string :=
  splitlines (run_output t (dig_args name rtype resolver)).

Definition headers_lines (t : nat) (url : string) : list string :=
  splitlines (run_output t (curl_headers_args url)).

(** The answers to the CNAME queries sent to the resolvers [rs] one after
    the other, the first of them being call number [t]. *)
Fixpoint group_answers (t : nat) (fqdn : string) (rs : list string)
  : list (list string) :=
  match rs with
  | [] => []
  | r :: rest =>
      dig_lines t fqdn "CNAME" (Some r) :: group_answers (S t) fqdn rest
  end.

End Program.

(** *** Specification-side notions *)

(** A resolver agrees with the local one when its first answer is the
    local first answer; an empty answer does not agree. *)
Definition agrees (first : string) (answer : list string) : bool :=
  match answer with
  | [] => false
  | x :: _ => String.eqb x first
  end.

(** Number of answers of a group that agree with the local first answer. *)
Definition propagation_count (first : string) (answers : list (list string))
  : nat :=
  List.length (filter (agrees first) answers).

(** Every value assigned to the exit status is the value before it,
    or-ed with a flag. *)
Fixpoint or_chain (prev : Z) (vs : list Z) : Prop :=
  match vs with
  | [] => True
  | v :: rest => (exists b : bool, v = Z.lor prev (Z.b2z b)) /\ or_chain v rest
  end.

(** The values never decrease. *)
Fixpoint nondecreasing (prev : Z) (vs : list Z) : Prop :=
  match vs with
  | [] => True
  | v :: rest => (prev <= v)%Z /\ nondecreasing v rest
  end.

(** The lines the stages print. *)
Definition header (title : string) : Out := mkOut PLAIN [Txt (nl ++ title)].
Definition ok_line (msg : list Frag) : Out := mkOut OK msg.
Definition fail_line (msg : list Frag) : Out := mkOut FAIL msg.
Definition warn_line (msg : list Frag) : Out := mkOut WARN msg.

(** *** Pure readings of the redirect headers *)

(** [hs[0].split()[1] if hs else ''] without the monad: [None] stands for
    the [IndexError]. *)
Definition parse_status (hs : list string) : option string :=
  match hs with
  | [] => Some ""
  | l0 :: _ => nth_error (split l0) 1
  end.

(** [next_location] without the monad. *)
Fixpoint parse_location (hs : list string) : option string :=
  match hs with
  | [] => Some ""
  | l :: rest =>
      if startswith l "Location:" then nth_error (split l) 1
      else parse_location rest
  end.

(** [f'https://www.{CUSTOM_DOMAIN}/'] *)
Definition redirect_target : string := "https://www." ++ CUSTOM_DOMAIN ++ "/".

Definition redirect_ok (status location : string) : bool :=
  String.eqb status "301" && String.eqb location redirect_target.

(** *** Lines and queries of the DNS audit *)

Definition propagation_line (pub npub auth nauth : nat) : Out :=
  mkOut PLAIN [Txt "Propagation → public "; Num pub; Txt "/"; Num npub;
               Txt " | authoritative "; Num auth; Txt "/"; Num nauth].

Definition verification_verdict (a : list string) : Out :=
  if nonempty a
  then warn_line [Txt "Verification CNAME resolves to A-record — NXDOMAIN expected"]
  else ok_line [Txt "Verification CNAME NXDOMAIN on A lookup"].

Definition cname_queries (fqdn : string) (rs : list string) : list Call :=
  map (fun r => CheckOutput (dig_args fqdn "CNAME" (Some r))) rs.

(** *** Readings of the self-test *)

Section SelfTestReadings.
Variable w : World.

(** What the self-test started as call number [t] is answered. *)
Definition st_has_dig (t : nat) : bool := which_at w t "dig".
Definition st_probe (t : nat) : list string :=
  dig_lines w (S t) TEST_HOST "A" None.
Definition st_answer (t : nat) : list string :=
  dig_lines w (S (S t)) TEST_HOST "A" None.
Definition st_ip (t : nat) : string := hd "" (st_answer t).
Definition st_ping (t : nat) : option Z :=
  call_at w (S (S (S t))) (ping_args (st_ip t)).
Definition st_status (t : nat) : string :=
  run_output w (S (S (S (S t)))) (curl_status_args ("https://" ++ TEST_HOST)).

End SelfTestReadings.

(** The computation did not return: it left through [sys.exit] or an
    exception. *)
Definition aborted {A} (o : Outcome A) : bool :=
  match o with Ret _ => false | _ => true end.

Fixpoint argv_eqb (a b : list string) : bool :=
  match a, b with
  | [], [] => true
  | x :: a', y :: b' => String.eqb x y && argv_eqb a' b'
  | _, _ => false
  end.

(** The calls the self-test can make. *)
Definition self_test_call (c : Call) : bool :=
  match c with
  | Which cmd => String.eqb cmd "dig"
  | CheckOutput argv =>
      argv_eqb argv (dig_args TEST_HOST "A" None) ||
      argv_eqb argv (curl_status_args ("https://" ++ TEST_HOST))
  | SubCall ("ping" :: _) => true
  | SubCall _ => false
  end.

(** A section heading of a stage after the self-test. *)
Definition later_stage_heading (o : Out) : bool :=
  match text o with
  | [Txt t] =>
      existsb (String.eqb t)
        [nl ++ "===== Nameserver Sanity =====";
         nl ++ "===== DNS Audit =====";
         nl ++ "===== Root A-record Presence & Forwarding =====";
         nl ++ "===== Blogger HTTPS Status =====";
         nl ++ "===== ADVANCED: Traceroute =====";
         nl ++ "===== ADVANCED: Subdomain Enumeration =====";
         nl ++ "===== DEBUG ====="]
  | _ => false
  end.

(** The call is the address lookup of [TEST_HOST]. *)
Definition is_test_host_lookup (c : Call) : bool :=
  match c with
  | CheckOutput argv => argv_eqb argv (dig_args TEST_HOST "A" None)
  | _ => false
  end.

(** *** Accumulation of the exit status *)

Definition any_fail (out : list Out) : bool := existsb is_fail out.

(** [s'] continues [s]: output and trail were only extended, the exit
    status went through or-assignments only, and it now flags exactly
    the failures printed in between. *)
Definition continues (s s' : State) : Prop :=
  exists out vs,
    stdout s' = (stdout s ++ out)%list /\
    trail s' = (trail s ++ vs)%list /\
    or_chain (exit_code s) vs /\
    exit_code s' = last vs (exit_code s) /\
    exit_code s' = Z.lor (exit_code s) (Z.b2z (any_fail out)).

(** A computation accumulates the exit status when every run of it
    continues the state it started from, and [sys.exit] hands out the
    status accumulated so far. *)
Definition accumulates {A} (m : M A) : Prop :=
  forall s,
    continues s (snd (m s)) /\
    (forall c, fst (m s) = Exit c -> c = exit_code (snd (m s))).

(** *** The self-test as a whole *)

(** Every step of the self-test started as call number [t] succeeds. *)
Definition self_test_passes (w : World) (t : nat) : bool :=
  st_has_dig w t &&
  nonempty (st_probe w t) &&
  nonempty (st_answer w t) &&
  match st_ping w t with Some rc => Z.eqb rc 0 | None => false end &&
  String.eqb (st_status w t) "200".

(** *** Who writes [last_headers] *)

Definition keeps_headers {A} (m : M A) : Prop :=
  forall s, last_headers (snd (m s)) = last_headers s.

(** The fetch of the headers of the root domain. *)
Definition root_headers_fetch : Call :=
  CheckOutput (curl_headers_args ("https://" ++ CUSTOM_DOMAIN)).

(** [m] only adds calls to the log. *)
Definition extends_calls {A} (m : M A) : Prop :=
  forall s, exists more, calls (snd (m s)) = (calls s ++ more)%list.

(** In [s'], call number [t] is the fetch of the root headers, and
    [last_headers] is what the world answered to that very call. *)
Definition holds_fetch (w : World) (s' : State) (t : nat) : Prop :=
  nth_error (calls s') t = Some root_headers_fetch /\
  last_headers s' = headers_lines w t ("https://" ++ CUSTOM_DOMAIN).

(** [m] leaves [last_headers] alone, or stores the answer to a fetch of
    the root headers that it made itself. *)
Definition headers_from_fetch (w : World) {A} (m : M A) : Prop :=
  forall s,
    last_headers (snd (m s)) = last_headers s \/
    exists t, tick s <= t /\ holds_fetch w (snd (m s)) t.

(** A name as [dig] prints it, without the closing dot. *)
Fixpoint without_root_dot (s : string) : string :=
  match s with
  | EmptyString => EmptyString
  | String c r =>
      match r with
      | EmptyString => if Ascii.eqb c "." then EmptyString else s
      | _ => String c (without_root_dot r)
      end
  end.

(** Two record lists hold the same addresses, in any order and number. *)
Definition same_records (a b : list string) : bool :=
  forallb (contains b) a && forallb (contains a) b.

(** [m] leaves the exit status alone and never calls [sys.exit]. *)
Definition quiet {A} (m : M A) : Prop :=
  forall s,
    exit_code (snd (m s)) = exit_code s /\
    forall c, fst (m s) <> Exit c.

End Script.

Import Script.

(* ================================================================= *)
(** ** Concrete worlds *)

Module Scenarios.

Definition crlf : string := String CR nl.

(** A correctly configured domain seen from a working network. *)
Definition healthy_output (argv : list string) : option string :=
  match argv with
  | ["dig"; "+short"; "-t"; "A"; "www.google.com"] => Some ("142.250.1.1" ++ nl)
  | ["dig"; "+short"; "-t"; "NS"; _] =>
      Some ("ns1.dns.net." ++ nl ++ "ns2.dns.net." ++ nl)
  | ["dig"; "+short"; "-t"; "CNAME"; _] => Some ("ghs.google.com." ++ nl)
  | ["dig"; "+short"; "-t"; "CNAME"; _; "@ns2.dns.net."] => Some ""
  | ["dig"; "+short"; "-t"; "CNAME"; _; _] => Some ("ghs.google.com." ++ nl)
  | ["dig"; "+short"; "-t"; "A"; "example.com"] =>
      Some ("216.239.32.21" ++ nl ++ "216.239.34.21" ++ nl ++
            "216.239.36.21" ++ nl ++ "216.239.38.21" ++ nl)
  | ["dig"; "+short"; "-t"; "A"; _] => Some ""
  | ["curl"; "-s"; "-o"; "/dev/null"; "-w"; "%{http_code}"; "http://www.example.com"] =>
      Some "301"
  | ["curl"; "-s"; "-o"; "/dev/null"; "-w"; "%{http_code}"; _] => Some "200"
  | ["curl"; "-sI"; "--max-time"; "5"; _] =>
      Some ("HTTP/1.1 301 Moved Permanently" ++ crlf ++
            "Location: https://www.example.com/" ++ crlf ++ crlf)
  | _ => None
  end.

Definition healthy : World :=
  mkWorld (fun _ _ => true) (fun _ => healthy_output) (fun _ _ => Some 0%Z).

(** [healthy], except that the command [argv] prints [out]. *)
Definition printing (argv : list string) (out : string) : World :=
  mkWorld (fun _ _ => true)
          (fun _ a => if argv_eqb a argv then Some out else healthy_output a)
          (fun _ _ => Some 0%Z).

(** No [dig] on the PATH. *)
Definition no_dig : World :=
  mkWorld (fun _ _ => false) (fun _ => healthy_output) (fun _ _ => Some 0%Z).

(** The root domain answers with an empty [Location] header. *)
Definition empty_location : World :=
  printing (curl_headers_args "https://example.com")
    ("HTTP/1.1 301 Moved Permanently" ++ crlf ++ "Location:" ++ crlf ++ crlf).

(** The root domain answers with a status line of one word. *)
Definition bare_status_line : World :=
  printing (curl_headers_args "https://example.com") ("HTTP/1.1" ++ crlf ++ crlf).

(** The verification host also has an address record. *)
Definition verification_has_address : World :=
  printing (dig_args "abcd1234.example.com" "A" None) ("203.0.113.7" ++ nl).

(** The resolver answers the first query for the test host and not the
    second one. *)
Definition flaky_resolver : World :=
  mkWorld (fun _ _ => true)
          (fun t a => if Nat.eqb t 2 then None else healthy_output a)
          (fun _ _ => Some 0%Z).

(** The test host does not resolve. *)
Definition unresolvable : World :=
  printing (dig_args TEST_HOST "A" None) "".

(** The domain is delegated to nameservers under its own name; [dig]
    prints them, as every name, with the closing dot. *)
Definition glue_nameservers : World :=
  printing (dig_args CUSTOM_DOMAIN "NS" None)
    ("ns1.example.com." ++ nl ++ "ns2.example.com." ++ nl).

(** The right redirect, with the header name in lower case as HTTP/2
    responses are printed. *)
Definition lowercase_location : World :=
  printing (curl_headers_args "https://example.com")
    ("HTTP/2 301" ++ crlf ++ "location: https://www.example.com/" ++ crlf ++ crlf).

(** The four Blogger addresses in another order, one of them twice. *)
Definition shuffled_records : World :=
  printing (dig_args CUSTOM_DOMAIN "A" None)
    ("216.239.38.21" ++ nl ++ "216.239.32.21" ++ nl ++ "216.239.36.21" ++ nl ++
     "216.239.34.21" ++ nl ++ "216.239.32.21" ++ nl).

End Scenarios.

Import Scenarios.

(* ================================================================= *)
(** ** Facts about the string methods *)

Example strip_ex : strip (String LF " 1.2.3.4 " ++ nl) = "1.2.3.4".
Proof. reflexivity. Qed.

Example splitlines_ex :
  splitlines ("a" ++ String CR nl ++ nl ++ "b c" ++ nl) = ["a"; ""; "b c"].
Proof. reflexivity. Qed.

Example split_ex : split "  HTTP/1.1   301 Moved " = ["HTTP/1.1"; "301"; "Moved"].
Proof. reflexivity. Qed.

Example decode_ex :
  decode_text ("a" ++ String CR nl ++ "b" ++ String CR "") =
    Some ("a" ++ nl ++ "b" ++ nl) /\
  decode_text (String (chr 195) (String (chr 169) "")) =
    Some (String (chr 195) (String (chr 169) "")) /\
  decode_text (String (chr 255) "") = None /\
  decode_text (String (chr 195) "") = None.
Proof. repeat split. Qed.

Example search_ex :
  re_search_literal_eol "example.com" "ns1.example.com" = true /\
  re_search_literal_eol "example.com" "ns1.example.com." = false /\
  re_search_literal_eol "example.com" ("ns1.example.com" ++ nl) = true.
Proof. repeat split. Qed.

Section StringFacts.

Lemma linebreak_is_space c : is_linebreak c = true -> is_space c = true.
Proof.
  destruct c as [[] [] [] [] [] [] [] []]; vm_compute; congruence.
Qed.

Lemma LF_is_linebreak : is_linebreak LF = true.
Proof. reflexivity. Qed.

Lemma no_linebreak_app a b :
  no_linebreak (a ++ b) = no_linebreak a && no_linebreak b.
Proof.
  induction a as [|c a IH]; simpl; [reflexivity|].
  rewrite IH. now rewrite andb_assoc.
Qed.

(** Lines produced by [splitlines] hold no line boundary. *)
Lemma splitlines_from_no_linebreak n : forall s cur,
  String.length s <= n ->
  no_linebreak cur = true ->
  Forall (fun l => no_linebreak l = true) (splitlines_from cur s).
Proof.
  induction n as [|n IH]; intros s cur Hlen Hcur.
  - destruct s; simpl in Hlen; [|lia]. simpl.
    destruct cur; constructor; auto.
  - destruct s as [|c r]; simpl.
    + destruct cur; constructor; auto.
    + simpl in Hlen. destruct (is_linebreak c) eqn:Hc.
      * destruct r as [|c' r'].
        -- constructor; auto.
        -- destruct (Ascii.eqb c CR && Ascii.eqb c' LF);
             constructor; auto; apply IH; simpl in *; auto; lia.
      * apply IH; [lia|].
        rewrite no_linebreak_app. simpl. now rewrite Hcur, Hc.
Qed.

Lemma splitlines_no_linebreak s :
  Forall (fun l => no_linebreak l = true) (splitlines s).
Proof.
  apply (splitlines_from_no_linebreak (String.length s)); auto.
Qed.

(** With a line already begun, the first line returned is not empty. *)
Lemma splitlines_from_started n : forall s cur,
  String.length s <= n ->
  cur <> "" ->
  exists x rest, splitlines_from cur s = x :: rest /\ x <> "".
Proof.
  induction n as [|n IH]; intros s cur Hlen Hcur.
  - destruct s; simpl in Hlen; [|lia]. simpl.
    destruct cur; [congruence|]. eauto.
  - destruct s as [|c r]; simpl.
    + destruct cur; [congruence|]. eauto.
    + simpl in Hlen. destruct (is_linebreak c).
      * destruct r as [|c' r']; [eauto|].
        destruct (Ascii.eqb c CR && Ascii.eqb c' LF); eauto.
      * apply IH; [lia|]. destruct cur; simpl; congruence.
Qed.

Lemma lstrip_head s c r : lstrip s = String c r -> is_space c = false.
Proof.
  induction s as [|a s IH]; simpl; [discriminate|].
  destruct (is_space a) eqn:Ha; auto.
  intros H; inversion H; subst; auto.
Qed.

Lemma rstrip_head s c r : rstrip s = String c r -> exists r0, s = String c r0.
Proof.
  destruct s as [|a s]; simpl; [discriminate|].
  destruct (rstrip s); [destruct (is_space a)|]; intros H; inversion H; subst; eauto.
Qed.

Lemma strip_head s c r : strip s = String c r -> is_space c = false.
Proof.
  unfold strip. intros H.
  destruct (rstrip_head _ _ _ H) as [r0 H0].
  eapply lstrip_head; eauto.
Qed.

(** The first line of stripped text is never empty. *)
Lemma splitlines_strip_head raw x rest :
  splitlines (strip raw) = x :: rest -> x <> "".
Proof.
  unfold splitlines. destruct (strip raw) as [|c r] eqn:Hs; simpl; [discriminate|].
  pose proof (strip_head _ _ _ Hs) as Hc.
  destruct (is_linebreak c) eqn:Hl.
  - apply linebreak_is_space in Hl. congruence.
  - intros H.
    destruct (splitlines_from_started (String.length r) r (String c "")) as (x' & rest' & E & Hx);
      auto; [discriminate|].
    simpl in H. rewrite E in H. inversion H; subst; auto.
Qed.

Lemma match_literal_spec lit : forall s rest,
  match_literal lit s = Some rest <-> s = lit ++ rest.
Proof.
  induction lit as [|a lit IH]; intros s rest; simpl.
  - destruct s; split; intros H; inversion H; auto.
  - destruct s as [|b s]; [split; discriminate|].
    destruct (Ascii.eqb_spec a b) as [->|Hab].
    + rewrite IH. split; intros H; [subst; auto | inversion H; auto].
    + split; [discriminate|]. intros H; inversion H; congruence.
Qed.

Lemma append_nil_r s : s ++ "" = s.
Proof. induction s; simpl; congruence. Qed.

(** On a string without a line feed, [$] is the end of the string. *)
Lemma match_at_eol lit s :
  no_linebreak s = true ->
  match match_literal lit s with Some rest => at_dollar rest | None => false end
  = String.eqb s lit.
Proof.
  intros Hs. apply eq_iff_eq_true. rewrite String.eqb_eq. split.
  - destruct (match_literal lit s) as [rest|] eqn:Hm; [|discriminate].
    apply match_literal_spec in Hm. subst s.
    unfold at_dollar. rewrite orb_true_iff, !String.eqb_eq.
    intros [->| ->]; [apply append_nil_r|].
    rewrite no_linebreak_app, andb_comm in Hs. discriminate Hs.
  - intros ->.
    assert (H : match_literal lit lit = Some "")
      by (apply match_literal_spec; now rewrite append_nil_r).
    now rewrite H.
Qed.

Lemma re_search_is_endswith lit s :
  no_linebreak s = true ->
  re_search_literal_eol lit s = endswith s lit.
Proof.
  induction s as [|c r IH]; intros Hs.
  - simpl. rewrite (match_at_eol lit "" Hs). reflexivity.
  - cbn [re_search_literal_eol endswith].
    rewrite (match_at_eol lit (String c r) Hs).
    simpl in Hs. apply andb_prop in Hs as [_ Hr].
    now rewrite IH.
Qed.

(** [endswith] is the usual suffix relation. *)
Lemma endswith_spec s p :
  endswith s p = true <-> exists pre, s = pre ++ p.
Proof.
  induction s as [|c r IH]; cbn [endswith].
  - rewrite orb_false_r, String.eqb_eq. split.
    + intros <-. now exists "".
    + intros [pre E]. destruct pre; simpl in E; [auto|discriminate].
  - rewrite orb_true_iff, String.eqb_eq, IH. split.
    + intros [<-|[pre ->]]; [now exists ""|now exists (String c pre)].
    + intros [pre E]. destruct pre as [|a pre]; simpl in E; [left; auto|].
      right. inversion E; subst. now exists pre.
Qed.

End StringFacts.

(* ================================================================= *)
(** ** Running the monad *)

Section Equations.

Variable w : World.

Lemma bind_ret {A B} (a : A) (k : A -> M B) s : bind (ret a) k s = k a s.
Proof. reflexivity. Qed.

Lemma bind_assoc {A B C} (m : M A) (f : A -> M B) (g : B -> M C) s :
  bind (bind m f) g s = bind m (fun x => bind (f x) g) s.
Proof. unfold bind. destruct (m s) as [[a|c|e] s']; reflexivity. Qed.

Lemma bind_print {B} kd t (k : unit -> M B) s :
  bind (print kd t) k s =
  k tt (mkState (exit_code s) (last_headers s) (stdout s ++ [mkOut kd t])%list
                (calls s) (trail s)).
Proof. reflexivity. Qed.

Lemma bind_print_status {B} ok msg (k : bool -> M B) s :
  bind (print_status ok msg) k s =
  k (negb ok)
    (mkState (exit_code s) (last_headers s)
             (stdout s ++ [mkOut (if ok then OK else FAIL) msg])%list
             (calls s) (trail s)).
Proof. reflexivity. Qed.

Lemma bind_print_warning {B} msg (k : unit -> M B) s :
  bind (print_warning msg) k s =
  k tt (mkState (exit_code s) (last_headers s) (stdout s ++ [mkOut WARN msg])%list
                (calls s) (trail s)).
Proof. reflexivity. Qed.

Lemma bind_or_exit_code {B} b (k : unit -> M B) s :
  bind (or_exit_code b) k s =
  k tt (mkState (Z.lor (exit_code s) (Z.b2z b)) (last_headers s) (stdout s)
                (calls s) (trail s ++ [Z.lor (exit_code s) (Z.b2z b)])%list).
Proof. reflexivity. Qed.

Lemma bind_which {B} cmd (k : bool -> M B) s :
  bind (which w cmd) k s = k (which_at w (tick s) cmd) (log_call (Which cmd) s).
Proof. reflexivity. Qed.

Lemma bind_run {B} cmd (k : string -> M B) s :
  bind (run w cmd) k s = k (run_output w (tick s) cmd) (log_call (CheckOutput cmd) s).
Proof. reflexivity. Qed.

Lemma bind_dig {B} name rtype res (k : list string -> M B) s :
  bind (dig w name rtype res) k s =
  k (dig_lines w (tick s) name rtype res)
    (log_call (CheckOutput (dig_args name rtype res)) s).
Proof. reflexivity. Qed.

Lemma bind_curl_status {B} url (k : string -> M B) s :
  bind (curl_status w url) k s =
  k (run_output w (tick s) (curl_status_args url))
    (log_call (CheckOutput (curl_status_args url)) s).
Proof. reflexivity. Qed.

Lemma bind_curl_headers {B} url (k : list string -> M B) s :
  bind (curl_headers w url) k s =
  k (headers_lines w (tick s) url)
    (log_call (CheckOutput (curl_headers_args url)) s).
Proof. reflexivity. Qed.

Lemma bind_set_last_headers {B} h (k : unit -> M B) s :
  bind (set_last_headers h) k s =
  k tt (mkState (exit_code s) h (stdout s) (calls s) (trail s)).
Proof. reflexivity. Qed.

Lemma bind_get_last_headers {B} (k : list string -> M B) s :
  bind get_last_headers k s = k (last_headers s) s.
Proof. reflexivity. Qed.

Lemma bind_raise {A B} e (k : A -> M B) s : bind (raise e) k s = (Raise e, s).
Proof. reflexivity. Qed.

Lemma bind_sys_exit {A B} (k : A -> M B) s :
  bind sys_exit k s = (Exit (exit_code s), s).
Proof. reflexivity. Qed.

Lemma tick_log_call c s : tick (log_call c s) = S (tick s).
Proof. unfold tick, log_call; simpl. rewrite length_app; simpl; lia. Qed.

End Equations.

Create Rewrite HintDb py.

#[local] Hint Rewrite @bind_assoc @bind_ret @bind_print @bind_print_status @bind_print_warning
  @bind_or_exit_code @bind_which @bind_dig @bind_curl_status @bind_curl_headers
  @bind_set_last_headers @bind_get_last_headers @bind_raise @bind_sys_exit
  @bind_run : py.

(** Run the straight-line prefix of a monadic term. *)
Ltac run_py :=
  unfold tick in *;
  repeat (progress (autorewrite with py; unfold log_call, tick;
                    cbn [exit_code last_headers stdout calls trail negb];
                    rewrite <- ?app_assoc; cbn [app];
                    rewrite ?length_app; cbn [List.length];
                    rewrite ?Nat.add_succ_r, ?Nat.add_0_r)).

(* ================================================================= *)
(** ** Nameserver sanity *)

Section Nameservers.
Variable w : World.

Lemma glue_iff_endswith ns :
  Forall (fun l => no_linebreak l = true) ns ->
  existsb (re_search_literal_eol CUSTOM_DOMAIN) ns = true <->
  exists n, In n ns /\ endswith n CUSTOM_DOMAIN = true.
Proof.
  intros Hns. rewrite existsb_exists. split; intros (n & Hin & H); exists n; split; auto.
  - rewrite <- re_search_is_endswith; auto. rewrite Forall_forall in Hns; auto.
  - rewrite re_search_is_endswith; auto. rewrite Forall_forall in Hns; auto.
Qed.

(** [nameserver_sanity] returns the list [dig] gave it and prints,
    after its heading, exactly one line: the glue warning when some
    returned line has [CUSTOM_DOMAIN] as its last characters, the
    success line otherwise.  An empty list gets the success line.  The
    exit status and its trail are left as they were. *)
Theorem nameserver_sanity_glue s :
  let ns := dig_lines w (tick s) CUSTOM_DOMAIN "NS" None in
  exists line,
    nameserver_sanity w s =
      (Ret ns,
       mkState (exit_code s) (last_headers s)
               (stdout s ++ [header "===== Nameserver Sanity ====="; line])%list
               (calls s ++ [CheckOutput (dig_args CUSTOM_DOMAIN "NS" None)])%list
               (trail s)) /\
    (line = warn_line [Txt "Glue-style NS detected: "; Repr ns] \/
     line = ok_line [Txt "Nameservers correct"]) /\
    (kind line = WARN <->
       exists n, In n ns /\ endswith n CUSTOM_DOMAIN = true) /\
    (ns = [] -> kind line = OK).
Proof.
  intros ns.
  assert (Hns : Forall (fun l => no_linebreak l = true) ns)
    by apply splitlines_no_linebreak.
  pose proof (glue_iff_endswith ns Hns) as Hglue.
  unfold nameserver_sanity. run_py. fold ns.
  destruct (existsb (re_search_literal_eol CUSTOM_DOMAIN) ns) eqn:G; run_py.
  - eexists. split; [reflexivity|].
    split; [left; reflexivity|]. split.
    + split; [intros _; now apply Hglue | reflexivity].
    + intros E. rewrite E in G. discriminate.
  - eexists. split; [reflexivity|].
    split; [right; reflexivity|]. split.
    + split; [discriminate|]. intros H. apply Hglue in H. discriminate.
    + reflexivity.
Qed.
End Nameservers.

(* ================================================================= *)
(** ** Root A records *)

Section RootRecords.
Variable w : World.

Lemma contains_In l x : contains l x = true <-> In x l.
Proof.
  unfold contains. rewrite existsb_exists. split.
  - intros (y & Hy & E). apply String.eqb_eq in E. now subst.
  - intros H. exists x. split; auto. apply String.eqb_refl.
Qed.

Lemma contains_all_incl l must :
  forallb (contains l) must = true <-> incl must l.
Proof.
  rewrite forallb_forall. unfold incl.
  split; intros H x Hx; apply contains_In; auto.
Qed.

Lemma lor_1_nonzero x : Z.lor x 1 <> 0%Z.
Proof.
  intros H. assert (T : Z.testbit (Z.lor x 1) 0 = true).
  { rewrite Z.lor_spec. simpl. apply orb_true_r. }
  rewrite H in T. discriminate.
Qed.

(** C2: [root_a_record_check] always returns, and what it returns is
    decided by the root A records [ips] alone: ["blogger"] with one
    success line when [ips] holds the four Blogger addresses (whatever
    else it holds); otherwise ["registrar"] with a warning and a success
    line when it holds the four forwarding addresses; otherwise
    ["invalid"] with a failure line, the exit status being or-ed with 1
    and so not zero. *)
Theorem root_a_record_check_total s :
  let ips := dig_lines w (tick s) CUSTOM_DOMAIN "A" None in
  let hdr := header "===== Root A-record Presence & Forwarding =====" in
  let asked := (calls s ++ [CheckOutput (dig_args CUSTOM_DOMAIN "A" None)])%list in
  exists mode s',
    root_a_record_check w s = (Ret mode, s') /\
    ((incl BLOGGER_IPS ips /\
      mode = "blogger" /\
      s' = mkState (exit_code s) (last_headers s)
             (stdout s ++ [hdr; ok_line [Txt "All Blogger A-records present"]])%list
             asked (trail s))
     \/
     (~ incl BLOGGER_IPS ips /\ incl FORWARD_IPS ips /\
      mode = "registrar" /\
      s' = mkState (exit_code s) (last_headers s)
             (stdout s ++
              [hdr;
               warn_line [Txt "Registrar DNS‑forwarding detected — recommend switching to Blogger A‑records"];
               ok_line [Txt "Registrar DNS‑forwarding — redirect handled externally"]])%list
             asked (trail s))
     \/
     (~ incl BLOGGER_IPS ips /\ ~ incl FORWARD_IPS ips /\
      mode = "invalid" /\
      s' = mkState (Z.lor (exit_code s) 1) (last_headers s)
             (stdout s ++
              [hdr; fail_line [Txt "A-record misconfigured — found "; Repr ips]])%list
             asked (trail s ++ [Z.lor (exit_code s) 1])%list /\
      exit_code s' <> 0%Z)).
Proof.
  intros ips hdr asked. subst asked hdr.
  unfold root_a_record_check. run_py. fold ips.
  pose proof (contains_all_incl ips BLOGGER_IPS) as HB.
  pose proof (contains_all_incl ips FORWARD_IPS) as HF.
  destruct (forallb (contains ips) BLOGGER_IPS).
  - run_py. do 2 eexists. split; [reflexivity|].
    left. repeat split. now apply HB.
  - destruct (forallb (contains ips) FORWARD_IPS).
    + run_py. do 2 eexists. split; [reflexivity|].
      right; left. repeat split; [|now apply HF].
      intros H. apply HB in H. discriminate.
    + run_py. do 2 eexists. split; [reflexivity|].
      right; right. repeat split.
      * intros H. apply HB in H. discriminate.
      * intros H. apply HF in H. discriminate.
      * apply lor_1_nonzero.
Qed.

End RootRecords.

(* ================================================================= *)
(** ** Redirect check *)

Section Redirect.
Variable w : World.

Lemma bind_getitem {A B} (l : list A) i (k : A -> M B) s :
  bind (getitem l i) k s =
  match nth_error l i with
  | Some x => k x s
  | None => (Raise IndexError, s)
  end.
Proof. unfold getitem. destruct (nth_error l i); reflexivity. Qed.

Lemma bind_next_location {B} hs (k : string -> M B) s :
  bind (next_location hs) k s =
  match parse_location hs with
  | Some x => k x s
  | None => (Raise IndexError, s)
  end.
Proof.
  induction hs as [|l rest IH]; cbn [next_location parse_location]; [reflexivity|].
  destruct (startswith l "Location:"); [apply bind_getitem | apply IH].
Qed.

Lemma bind_status_line {B} hs (k : string -> M B) s :
  bind (if nonempty hs
        then (l0 <- getitem hs 0 ;; getitem (split l0) 1)
        else ret "") k s =
  match parse_status hs with
  | Some x => k x s
  | None => (Raise IndexError, s)
  end.
Proof.
  destruct hs as [|l0 rest]; cbn [nonempty parse_status]; [reflexivity|].
  rewrite bind_assoc, bind_getitem.
  change (nth_error (l0 :: rest) 0) with (Some l0). cbv iota.
  apply bind_getitem.
Qed.

Lemma redirect_check_blogger s :
  let hs := headers_lines w (tick s) ("https://" ++ CUSTOM_DOMAIN) in
  let asked :=
    (calls s ++ [CheckOutput (curl_headers_args ("https://" ++ CUSTOM_DOMAIN))])%list in
  redirect_check w "blogger" s =
  match parse_status hs, parse_location hs with
  | Some status, Some location =>
      let ok := redirect_ok status location in
      let v := Z.lor (exit_code s) (Z.b2z (negb ok)) in
      (Ret tt,
       mkState v hs
         (stdout s ++ [mkOut (if ok then OK else FAIL) [Txt "HTTP 301 → www"]])%list
         asked (trail s ++ [v])%list)
  | _, _ =>
      (Raise IndexError, mkState (exit_code s) hs (stdout s) asked (trail s))
  end.
Proof.
  intros hs asked. subst asked.
  unfold redirect_check. cbn [String.eqb Ascii.eqb Bool.eqb when]. cbv iota.
  run_py. fold hs.
  rewrite bind_status_line.
  destruct (parse_status hs) as [status|]; [|destruct (parse_location hs); reflexivity].
  run_py. rewrite bind_next_location.
  destruct (parse_location hs) as [location|]; [|reflexivity].
  run_py. reflexivity.
Qed.

(** C5: for every mode other than ["blogger"], [redirect_check] returns
    at once and leaves the whole state as it was: no header fetch, no
    line printed, [exit_code] and [last_headers] unchanged. *)
Theorem redirect_check_skipped mode s :
  mode <> "blogger" -> redirect_check w mode s = (Ret tt, s).
Proof.
  intros H. unfold redirect_check.
  destruct (String.eqb_spec mode "blogger"); [contradiction|reflexivity].
Qed.

(** When both values can be read, the check reports success exactly for
    [301] and the expected location, and a failure sets the flag. *)
Lemma redirect_check_reports s status location :
  let hs := headers_lines w (tick s) ("https://" ++ CUSTOM_DOMAIN) in
  parse_status hs = Some status ->
  parse_location hs = Some location ->
  let r := redirect_check w "blogger" s in
  fst r = Ret tt /\
  ((status = "301" /\ location = redirect_target) /\
   stdout (snd r) = (stdout s ++ [ok_line [Txt "HTTP 301 → www"]])%list /\
   exit_code (snd r) = exit_code s
   \/
   ~ (status = "301" /\ location = redirect_target) /\
   stdout (snd r) = (stdout s ++ [fail_line [Txt "HTTP 301 → www"]])%list /\
   exit_code (snd r) = Z.lor (exit_code s) 1 /\
   exit_code (snd r) <> 0%Z).
Proof.
  intros hs Hst Hloc r. subst r.
  pose proof (redirect_check_blogger s) as E. cbv zeta in E.
  fold hs in E. rewrite Hst, Hloc in E. rewrite E. clear E.
  cbn [fst snd stdout exit_code]. split; [reflexivity|].
  unfold redirect_ok.
  destruct (String.eqb_spec status "301") as [H1|H1];
    destruct (String.eqb_spec location redirect_target) as [H2|H2];
    cbn [andb negb Z.b2z];
    first [ left; repeat split; auto; apply Z.lor_0_r
          | right; repeat split; try apply lor_1_nonzero; intros [? ?]; contradiction ].
Qed.

(** In ["blogger"] mode the headers are fetched, once. *)
Lemma redirect_check_fetches s :
  calls (snd (redirect_check w "blogger" s)) =
  (calls s ++ [CheckOutput (curl_headers_args ("https://" ++ CUSTOM_DOMAIN))])%list.
Proof.
  pose proof (redirect_check_blogger s) as E. cbv zeta in E. rewrite E.
  destruct (parse_status _); [destruct (parse_location _)|]; reflexivity.
Qed.

End Redirect.

(* ================================================================= *)
(** ** DNS audit *)

Section Audit.
Variable w : World.

Lemma agrees_code first a :
  first <> "" ->
  match nth_error (list_or a [""]) 0 with
  | Some x => String.eqb x first
  | None => false
  end = agrees first a.
Proof.
  intros Hf. destruct a as [|x a]; simpl; auto.
  destruct first; [congruence|reflexivity].
Qed.

Lemma count_matching_spec fqdn first cname rs :
  first <> "" ->
  forall e h o c t,
    count_matching w fqdn (first :: cname) rs (mkState e h o c t) =
    (Ret (propagation_count first (group_answers w (List.length c) fqdn rs)),
     mkState e h o (c ++ cname_queries fqdn rs)%list t).
Proof.
  intros Hf. induction rs as [|r rest IH]; intros e h o c t.
  - simpl. now rewrite app_nil_r.
  - cbn [count_matching group_answers cname_queries map].
    run_py. rewrite bind_getitem.
    pose proof (agrees_code first (dig_lines w (List.length c) fqdn "CNAME" (Some r)) Hf) as Ha.
    destruct (nth_error _ 0) as [x|] eqn:Hx.
    + rewrite bind_getitem. cbn [nth_error].
      unfold bind. rewrite IH. rewrite last_length, <- app_assoc.
      unfold propagation_count. cbn [filter app]. rewrite <- Ha.
      destruct (String.eqb x first); reflexivity.
    + destruct (dig_lines w (List.length c) fqdn "CNAME" (Some r)); discriminate Hx.
Qed.

Lemma bind_count_matching {B} fqdn first cname rs (k : nat -> M B) e h o c t :
  first <> "" ->
  bind (count_matching w fqdn (first :: cname) rs) k (mkState e h o c t) =
  k (propagation_count first (group_answers w (List.length c) fqdn rs))
    (mkState e h o (c ++ cname_queries fqdn rs)%list t).
Proof.
  intros Hf. unfold bind. now rewrite count_matching_spec.
Qed.

Lemma propagation_count_le first answers :
  propagation_count first answers <= List.length answers.
Proof. apply filter_length_le. Qed.


Lemma dig_first_nonempty t name rtype res x rest :
  dig_lines w t name rtype res = x :: rest -> x <> "".
Proof.
  unfold dig_lines, run_output.
  destruct (captured_text w t _).
  - apply splitlines_strip_head.
  - discriminate.
Qed.

(** The two counting loops and the closing line of [audit_host]. *)
Ltac finish_audit Hc0 :=
  rewrite (bind_count_matching _ _ _ _ _ _ _ _ _ _ Hc0);
  rewrite (bind_count_matching _ _ _ _ _ _ _ _ _ _ Hc0);
  rewrite !length_app; cbn [List.length cname_queries RESOLVERS map];
  unfold print; cbn [exit_code last_headers stdout calls trail];
  rewrite <- !app_assoc; cbn [app];
  unfold propagation_line; repeat f_equal; lia.

Lemma audit_host_spec ns_list host expected s :
  let fqdn := host ++ "." ++ CUSTOM_DOMAIN in
  let t := tick s in
  let hdr := mkOut PLAIN [Txt (nl ++ "── "); Txt fqdn; Txt " ──"] in
  let q0 := CheckOutput (dig_args fqdn "CNAME" None) in
  audit_host w ns_list (host, expected) s =
  match dig_lines w t fqdn "CNAME" None with
  | [] =>
      (Ret tt,
       mkState (Z.lor (exit_code s) 1) (last_headers s)
         (stdout s ++
          [hdr;
           fail_line [Txt "Missing CNAME — expected "; Txt host; Txt "→"; Txt expected]])%list
         (calls s ++ [q0])%list
         (trail s ++ [Z.lor (exit_code s) 1])%list)
  | c0 :: _ =>
      let verify := String.eqb host CNAME_1_HOST in
      let t1 := if verify then S (S t) else S t in
      let pub := propagation_count c0 (group_answers w t1 fqdn RESOLVERS) in
      let auth :=
        propagation_count c0
          (group_answers w (t1 + List.length RESOLVERS) fqdn ns_list) in
      (Ret tt,
       mkState (exit_code s) (last_headers s)
         (stdout s ++
          [hdr; mkOut PLAIN [Txt "CNAME → "; Txt c0]] ++
          (if verify
           then [verification_verdict (dig_lines w (S t) fqdn "A" None)]
           else []) ++
          [propagation_line pub (List.length RESOLVERS) auth (List.length ns_list)])%list
         (calls s ++ [q0] ++
          (if verify then [CheckOutput (dig_args fqdn "A" None)] else []) ++
          cname_queries fqdn RESOLVERS ++ cname_queries fqdn ns_list)%list
         (trail s))
  end.
Proof.
  intros fqdn t hdr q0. subst t hdr q0.
  unfold audit_host. fold fqdn. run_py.
  destruct (dig_lines w (List.length (calls s)) fqdn "CNAME" None) as [|c0 cs] eqn:Hc.
  - cbn [nonempty negb]. run_py. reflexivity.
  - pose proof (dig_first_nonempty _ _ _ _ _ _ Hc) as Hc0.
    cbn [nonempty negb]. rewrite bind_getitem. cbn [nth_error]. run_py.
    destruct (String.eqb host CNAME_1_HOST) eqn:Hv; cbn [when]; run_py.
    + unfold verification_verdict.
      destruct (dig_lines w (S (List.length (calls s))) fqdn "A" None) as [|a0 a];
        cbn [nonempty]; run_py; finish_audit Hc0.
    + finish_audit Hc0.
Qed.

End Audit.

(* ================================================================= *)
(** ** Self-test *)

Section SelfTest.
Variable w : World.

Lemma bind_subprocess_call {B} argv (k : Z -> M B) s :
  bind (subprocess_call w argv) k s =
  match call_at w (tick s) argv with
  | Some rc => k rc (log_call (SubCall argv) s)
  | None => (Raise OSError, log_call (SubCall argv) s)
  end.
Proof.
  unfold bind, subprocess_call. destruct (call_at w (tick s) argv); reflexivity.
Qed.

Lemma bind_ping {B} ip (k : bool -> M B) s :
  bind (ping w ip) k s =
  match call_at w (tick s) (ping_args ip) with
  | Some rc => k (Z.eqb rc 0) (log_call (SubCall (ping_args ip)) s)
  | None => (Raise OSError, log_call (SubCall (ping_args ip)) s)
  end.
Proof.
  unfold ping. rewrite bind_assoc, bind_subprocess_call.
  destruct (call_at w (tick s) (ping_args ip)); reflexivity.
Qed.

(** A leaf of the case analysis below: the run has stopped. *)
Ltac stopped_here Hcalls Hout :=
  do 2 eexists; split; [reflexivity|];
  cbn [fst snd aborted process_status calls stdout exit_code];
  split; [reflexivity|];
  split; [first [apply lor_1_nonzero | discriminate]|];
  split;
  [ rewrite <- ?app_assoc; apply (proj2 (Forall_app _ _ _)); split;
    [exact Hcalls | repeat constructor]
  | rewrite !existsb_app, Hout; reflexivity ].

(** Every way the self-test can fail ends the run on the spot. *)
Lemma self_test_abort s :
  st_has_dig w (tick s) = false \/
  st_probe w (tick s) = [] \/
  st_answer w (tick s) = [] \/
  st_ping w (tick s) <> Some 0%Z \/
  st_status w (tick s) <> "200" ->
  Forall (fun c => self_test_call c = true) (calls s) ->
  existsb later_stage_heading (stdout s) = false ->
  exists o s',
    self_test w s = (o, s') /\
    aborted o = true /\
    process_status o <> 0%Z /\
    Forall (fun c => self_test_call c = true) (calls s') /\
    existsb later_stage_heading (stdout s') = false.
Proof.
  unfold st_has_dig, st_probe, st_ping, st_status, st_ip, st_answer.
  intros Hfatal Hcalls Hout.
  unfold self_test. run_py.
  destruct (which_at w (List.length (calls s)) "dig") eqn:Hdig; cbn [negb when]; run_py;
    [|stopped_here Hcalls Hout].
  destruct (dig_lines w (S (List.length (calls s))) TEST_HOST "A" None)
    as [|p0 probe] eqn:Hprobe; cbn [nonempty]; run_py.
  { cbn [truthy String.eqb negb when]. run_py. stopped_here Hcalls Hout. }
  rewrite bind_getitem.
  destruct (dig_lines w (S (S (List.length (calls s)))) TEST_HOST "A" None)
    as [|ip answer] eqn:Hanswer; cbn [nth_error hd] in *.
  { stopped_here Hcalls Hout. }
  run_py.
  destruct (truthy ip) eqn:Hip; cbn [negb when]; run_py.
  2:{ stopped_here Hcalls Hout. }
  rewrite bind_ping. run_py.
  destruct (call_at w (S (S (S (List.length (calls s))))) (ping_args ip))
    as [rc|] eqn:Hping.
  2:{ stopped_here Hcalls Hout. }
  run_py.
  destruct (Z.eqb_spec rc 0) as [->|Hrc]; cbn [negb when]; run_py.
  2:{ stopped_here Hcalls Hout. }
  destruct (String.eqb_spec
              (run_output w (S (S (S (S (List.length (calls s))))))
                 (curl_status_args ("https://" ++ TEST_HOST))) "200")
    as [Hst|Hst]; cbn [negb when]; run_py.
  2:{ stopped_here Hcalls Hout. }
  exfalso. destruct Hfatal as [H|[H|[H|[H|H]]]]; congruence.
Qed.

(** Whenever the first lookup of [TEST_HOST] answers, the same query is
    sent once more. *)
Lemma self_test_looks_up_twice s :
  st_has_dig w (tick s) = true ->
  nonempty (st_probe w (tick s)) = true ->
  exists later,
    calls (snd (self_test w s)) =
    (calls s ++
     [Which "dig";
      CheckOutput (dig_args TEST_HOST "A" None);
      CheckOutput (dig_args TEST_HOST "A" None)] ++ later)%list.
Proof.
  unfold st_has_dig, st_probe. intros Hdig Hprobe.
  unfold self_test. run_py. rewrite Hdig. cbn [negb when]. run_py.
  destruct (dig_lines w (S (List.length (calls s))) TEST_HOST "A" None)
    as [|p0 probe]; [discriminate Hprobe|].
  cbn [nonempty]. run_py. rewrite bind_getitem.
  destruct (dig_lines w (S (S (List.length (calls s)))) TEST_HOST "A" None)
    as [|ip answer]; cbn [nth_error].
  { exists []. reflexivity. }
  run_py.
  destruct (truthy ip); cbn [negb when]; run_py.
  2:{ exists []. reflexivity. }
  rewrite bind_ping. run_py.
  destruct (call_at w (S (S (S (List.length (calls s))))) (ping_args ip)) as [rc|].
  2:{ eexists. reflexivity. }
  run_py.
  destruct (Z.eqb rc 0); cbn [negb when]; run_py.
  2:{ eexists. reflexivity. }
  destruct (String.eqb _ "200"); cbn [negb when]; run_py; eexists; reflexivity.
Qed.

End SelfTest.

(* ================================================================= *)
(** ** The exit status only accumulates *)

Section Accumulation.
Variable w : World.

Lemma b2z_orb a b : Z.b2z (a || b) = Z.lor (Z.b2z a) (Z.b2z b).
Proof. destruct a, b; reflexivity. Qed.

Lemma last_cons {A} (v : A) vs d : last (v :: vs) d = last vs v.
Proof.
  revert v d. induction vs as [|v' vs IH]; intros v d; [reflexivity|].
  change (last (v :: v' :: vs) d) with (last (v' :: vs) d).
  now rewrite !IH.
Qed.

Lemma last_app_default {A} (vs ws : list A) d :
  last (vs ++ ws) d = last ws (last vs d).
Proof.
  revert d. induction vs as [|v vs IH]; intros d; [reflexivity|].
  rewrite <- app_comm_cons, !last_cons. apply IH.
Qed.

Lemma or_chain_app prev vs ws :
  or_chain prev vs -> or_chain (last vs prev) ws -> or_chain prev (vs ++ ws).
Proof.
  revert prev. induction vs as [|v vs IH]; intros prev Hv Hw; [exact Hw|].
  destruct Hv as [Hb Hv]. rewrite last_cons in Hw.
  split; [exact Hb|]. now apply IH.
Qed.

Lemma continues_refl s : continues s s.
Proof.
  exists [], []. rewrite !app_nil_r. simpl. rewrite Z.lor_0_r. auto.
Qed.

Lemma continues_trans s1 s2 s3 :
  continues s1 s2 -> continues s2 s3 -> continues s1 s3.
Proof.
  intros (o1 & v1 & Ho1 & Hv1 & Hc1 & Hl1 & He1) (o2 & v2 & Ho2 & Hv2 & Hc2 & Hl2 & He2).
  exists (o1 ++ o2)%list, (v1 ++ v2)%list.
  rewrite Ho2, Ho1, Hv2, Hv1, !app_assoc. repeat split.
  - apply or_chain_app; auto. now rewrite <- Hl1.
  - rewrite last_app_default, <- Hl1. exact Hl2.
  - rewrite He2, He1. unfold any_fail. rewrite existsb_app, b2z_orb.
    now rewrite Z.lor_assoc.
Qed.

Lemma accumulates_ret {A} (a : A) : accumulates (ret a).
Proof. intros s. split; [apply continues_refl|discriminate]. Qed.

Lemma accumulates_raise {A} e : accumulates (@raise A e).
Proof. intros s. split; [apply continues_refl|discriminate]. Qed.

Lemma accumulates_sys_exit {A} : accumulates (@sys_exit A).
Proof.
  intros s. split; [apply continues_refl|].
  simpl. intros c H. now inversion H.
Qed.

Lemma accumulates_bind {A B} (m : M A) (k : A -> M B) :
  accumulates m -> (forall a, accumulates (k a)) -> accumulates (bind m k).
Proof.
  intros Hm Hk s. unfold bind.
  specialize (Hm s). destruct (m s) as [[a|c|e] s1]; simpl in Hm.
  - specialize (Hk a s1). destruct Hm as [Hm _], Hk as [Hk1 Hk2].
    split; [eapply continues_trans; eauto | exact Hk2].
  - destruct Hm as [H1 H2]. split; [exact H1|].
    simpl. intros c0 E. inversion E; subst. now apply H2.
  - destruct Hm as [H1 _]. split; [exact H1|discriminate].
Qed.

(** Only what touches neither the output nor the exit status. *)
Lemma continues_quiet s s' :
  exit_code s' = exit_code s -> stdout s' = stdout s -> trail s' = trail s ->
  continues s s'.
Proof.
  intros He Ho Ht. exists [], []. rewrite Ho, Ht, He, !app_nil_r.
  simpl. rewrite Z.lor_0_r. auto.
Qed.

Lemma accumulates_print kd t : kd <> FAIL -> accumulates (print kd t).
Proof.
  intros Hk s. split; [|discriminate].
  exists [mkOut kd t], []. simpl. rewrite app_nil_r.
  unfold is_fail. simpl. destruct kd; try congruence; simpl; rewrite Z.lor_0_r; auto.
Qed.

Lemma accumulates_print_status_ok msg : accumulates (print_status true msg).
Proof.
  unfold print_status. apply accumulates_bind.
  - apply accumulates_print. discriminate.
  - intros _. apply accumulates_ret.
Qed.

Lemma accumulates_print_warning msg : accumulates (print_warning msg).
Proof. apply accumulates_print. discriminate. Qed.

(** [exit_code |= print_status(ok, msg)], followed by [k]. *)
Lemma accumulates_flagged {B} ok msg (k : M B) :
  accumulates k ->
  accumulates (b <- print_status ok msg ;; or_exit_code b ;; k).
Proof.
  intros Hk s. rewrite bind_print_status, bind_or_exit_code.
  destruct (Hk (mkState (Z.lor (exit_code s) (Z.b2z (negb ok))) (last_headers s)
                 (stdout s ++ [mkOut (if ok then OK else FAIL) msg])%list (calls s)
                 (trail s ++ [Z.lor (exit_code s) (Z.b2z (negb ok))])%list)) as [H1 H2].
  cbn [exit_code last_headers stdout calls trail] in *.
  split; [|exact H2].
  eapply continues_trans; [|exact H1].
  exists [mkOut (if ok then OK else FAIL) msg], [Z.lor (exit_code s) (Z.b2z (negb ok))].
  cbn [exit_code last_headers stdout calls trail]. repeat split.
  - now exists (negb ok).
  - unfold any_fail, is_fail. destruct ok; reflexivity.
Qed.

Lemma accumulates_flagged_last ok msg :
  accumulates (b <- print_status ok msg ;; or_exit_code b).
Proof.
  intros s.
  pose proof (accumulates_flagged ok msg (ret tt) (accumulates_ret tt) s) as H.
  rewrite bind_print_status in *. rewrite bind_or_exit_code in H. exact H.
Qed.

Lemma accumulates_log {A} (f : State -> A) c :
  accumulates (fun s => (Ret (f s), log_call c s)).
Proof. intros s. split; [now apply continues_quiet|discriminate]. Qed.

Lemma accumulates_which cmd : accumulates (which w cmd).
Proof. apply (accumulates_log (fun s => which_at w (tick s) cmd)). Qed.

Lemma accumulates_check_output argv : accumulates (check_output w argv).
Proof. apply (accumulates_log (fun s => captured_text w (tick s) argv)). Qed.

Lemma accumulates_subprocess_call argv : accumulates (subprocess_call w argv).
Proof.
  intros s. unfold subprocess_call.
  destruct (call_at w (tick s) argv); (split; [now apply continues_quiet|discriminate]).
Qed.

Lemma accumulates_run cmd : accumulates (run w cmd).
Proof.
  apply accumulates_bind; [apply accumulates_check_output|].
  intros. apply accumulates_ret.
Qed.

Lemma accumulates_dig name rtype res : accumulates (dig w name rtype res).
Proof.
  apply accumulates_bind; [apply accumulates_run|]. intros. apply accumulates_ret.
Qed.

Lemma accumulates_ping ip : accumulates (ping w ip).
Proof.
  apply accumulates_bind; [apply accumulates_subprocess_call|].
  intros. apply accumulates_ret.
Qed.

Lemma accumulates_curl_status url : accumulates (curl_status w url).
Proof. apply accumulates_run. Qed.

Lemma accumulates_curl_headers url : accumulates (curl_headers w url).
Proof.
  apply accumulates_bind; [apply accumulates_run|]. intros. apply accumulates_ret.
Qed.

Lemma accumulates_set_last_headers h : accumulates (set_last_headers h).
Proof. intros s. split; [now apply continues_quiet|discriminate]. Qed.

Lemma accumulates_get_last_headers : accumulates get_last_headers.
Proof. intros s. split; [apply continues_refl|discriminate]. Qed.

Lemma accumulates_getitem {A} (l : list A) i : accumulates (getitem l i).
Proof.
  unfold getitem. destruct (nth_error l i);
    [apply accumulates_ret | apply accumulates_raise].
Qed.

Lemma accumulates_when c body : accumulates body -> accumulates (when c body).
Proof. destruct c; simpl; auto using accumulates_ret. Qed.

Lemma accumulates_for_each {A} (l : list A) body :
  (forall x, accumulates (body x)) -> accumulates (for_each l body).
Proof.
  intros Hb. induction l as [|x l IH]; simpl.
  - apply accumulates_ret.
  - apply accumulates_bind; auto.
Qed.

End Accumulation.

Create HintDb accum discriminated.

#[local] Hint Resolve accumulates_ret accumulates_raise accumulates_sys_exit
  accumulates_print_status_ok accumulates_print_warning accumulates_flagged_last
  accumulates_which accumulates_check_output accumulates_subprocess_call
  accumulates_run accumulates_dig accumulates_ping accumulates_curl_status
  accumulates_curl_headers accumulates_set_last_headers
  accumulates_get_last_headers accumulates_getitem : accum.

(** Walk down a monadic term, one statement at a time. *)
Ltac accum :=
  repeat first
    [ solve [auto with accum]
    | apply accumulates_print; discriminate
    | apply accumulates_flagged
    | apply accumulates_when
    | apply accumulates_for_each; intros
    | apply accumulates_bind; [|intros]
    | match goal with
      | |- accumulates (if ?c then _ else _) => destruct c
      | |- accumulates (let (_, _) := ?p in _) => destruct p
      end ].

Section Stages.
Variable w : World.

Lemma accumulates_self_test : accumulates (self_test w).
Proof. unfold self_test. accum. Qed.

Lemma accumulates_nameserver_sanity : accumulates (nameserver_sanity w).
Proof. unfold nameserver_sanity. accum. Qed.

Lemma accumulates_count_matching fqdn cname rs :
  accumulates (count_matching w fqdn cname rs).
Proof. induction rs as [|r rest IH]; cbn [count_matching]; accum. Qed.

Lemma accumulates_audit_host ns_list p : accumulates (audit_host w ns_list p).
Proof.
  pose proof accumulates_count_matching.
  unfold audit_host. accum.
Qed.

Lemma accumulates_dns_audit ns_list : accumulates (dns_audit w ns_list).
Proof.
  pose proof accumulates_audit_host.
  unfold dns_audit. accum.
Qed.

Lemma accumulates_root_a_record_check : accumulates (root_a_record_check w).
Proof. unfold root_a_record_check. accum. Qed.

Lemma accumulates_next_location hs : accumulates (next_location hs).
Proof. induction hs as [|l rest IH]; cbn [next_location]; accum. Qed.

Lemma accumulates_redirect_check mode : accumulates (redirect_check w mode).
Proof.
  pose proof accumulates_next_location.
  unfold redirect_check. accum.
Qed.

Lemma accumulates_https_status : accumulates (https_status w).
Proof. unfold https_status. accum. Qed.

Lemma accumulates_advanced_diagnostics : accumulates (advanced_diagnostics w).
Proof. unfold advanced_diagnostics. accum. Qed.

Lemma accumulates_debug_info : accumulates (debug_info w).
Proof. unfold debug_info. accum. Qed.

Lemma accumulates_main advanced debug : accumulates (main w advanced debug).
Proof.
  pose proof accumulates_self_test. pose proof accumulates_nameserver_sanity.
  pose proof accumulates_dns_audit. pose proof accumulates_root_a_record_check.
  pose proof accumulates_redirect_check. pose proof accumulates_https_status.
  pose proof accumulates_advanced_diagnostics. pose proof accumulates_debug_info.
  unfold main. accum.
Qed.

End Stages.

(* ================================================================= *)
(** ** Whole runs *)

Section Run.
Variable w : World.

Lemma bind_aborted {A B} (m : M A) (k : A -> M B) s :
  aborted (fst (m s)) = true ->
  aborted (fst (bind m k s)) = true /\
  process_status (fst (bind m k s)) = process_status (fst (m s)) /\
  snd (bind m k s) = snd (m s).
Proof.
  unfold bind. destruct (m s) as [[a|c|e] s1]; simpl; auto; discriminate.
Qed.

Lemma bind_never_returns {A B} (m : M A) (k : A -> M B) :
  (forall a s, aborted (fst (k a s)) = true) ->
  forall s, aborted (fst (bind m k s)) = true.
Proof.
  intros Hk s. unfold bind. destruct (m s) as [[a|c|e] s1]; simpl; auto.
Qed.

Lemma main_never_returns advanced debug s :
  aborted (fst (main w advanced debug s)) = true.
Proof.
  unfold main. revert s.
  repeat (apply bind_never_returns; intros ?). reflexivity.
Qed.

Lemma lor_b2z_ge x b : (0 <= x -> x <= Z.lor x (Z.b2z b))%Z.
Proof.
  intros Hx. destruct b; simpl; [|rewrite Z.lor_0_r; lia].
  destruct x as [|p|p]; [simpl; lia| |lia].
  destruct p; simpl; lia.
Qed.

Lemma or_chain_nondecreasing prev vs :
  (0 <= prev)%Z -> or_chain prev vs -> nondecreasing prev vs.
Proof.
  revert prev. induction vs as [|v vs IH]; intros prev Hp H; simpl; auto.
  destruct H as [[b ->] H].
  pose proof (lor_b2z_ge prev b Hp).
  split; [assumption|]. apply IH; [lia|assumption].
Qed.

(** C1: over a whole run of [main] from the initial globals, the exit
    status starts at 0, every value assigned to it is the value before
    or-ed with a flag, the values never decrease, and in the end the
    status is 1 when some failure line was printed and 0 otherwise.  So
    a printed failure makes the process status non-zero, and [sys.exit]
    hands out a status that warnings cannot change. *)
Theorem exit_status_accumulates advanced debug :
  let r := main w advanced debug init in
  exit_code init = 0%Z /\
  or_chain 0 (trail (snd r)) /\
  nondecreasing 0 (trail (snd r)) /\
  exit_code (snd r) = last (trail (snd r)) 0%Z /\
  exit_code (snd r) = Z.b2z (any_fail (stdout (snd r))) /\
  (forall c, fst r = Exit c -> c = Z.b2z (any_fail (stdout (snd r)))) /\
  (any_fail (stdout (snd r)) = true -> process_status (fst r) <> 0%Z).
Proof.
  intros r.
  destruct (accumulates_main w advanced debug init) as [Hc Hx].
  fold r in Hc, Hx.
  destruct Hc as (out & vs & Ho & Hv & Hchain & Hlast & Hflag).
  simpl in Ho, Hv, Hchain, Hlast, Hflag. subst out vs.
  assert (He : exit_code (snd r) = Z.b2z (any_fail (stdout (snd r)))) by exact Hflag.
  repeat split; auto.
  - apply or_chain_nondecreasing; [lia|assumption].
  - intros c Hc. rewrite <- He. now apply Hx.
  - intros Hf. pose proof (main_never_returns advanced debug init) as Hab.
    fold r in Hab. destruct (fst r) as [u|c|e] eqn:Hr; simpl in *.
    + discriminate.
    + rewrite (Hx c eq_refl), He, Hf. discriminate.
    + discriminate.
Qed.

(** C3: when [dig] is missing, or a lookup of [TEST_HOST] returns
    nothing, or [ping] does not end with status 0, or the HTTPS status of
    [TEST_HOST] is not exactly ["200"], the run of [main] does not
    return: its process status is not 0, its final state is the one the
    self-test left, it made self-test calls only, and it printed no
    heading of a later stage. *)
Theorem self_test_fail_fast advanced debug :
  st_has_dig w 0 = false \/
  st_probe w 0 = [] \/
  st_answer w 0 = [] \/
  st_ping w 0 <> Some 0%Z \/
  st_status w 0 <> "200" ->
  let r := main w advanced debug init in
  aborted (fst r) = true /\
  process_status (fst r) <> 0%Z /\
  snd r = snd (self_test w init) /\
  Forall (fun c => self_test_call c = true) (calls (snd r)) /\
  existsb later_stage_heading (stdout (snd r)) = false.
Proof.
  intros Hfatal r.
  destruct (self_test_abort w init Hfatal (Forall_nil _) eq_refl)
    as (o & s' & E & Hab & Hst & Hcalls & Hout).
  assert (Hab' : aborted (fst (self_test w init)) = true) by now rewrite E.
  subst r. unfold main.
  match goal with
  | |- context [bind (self_test w) ?k init] =>
      destruct (bind_aborted (self_test w) k init Hab') as (H1 & H2 & H3)
  end.
  rewrite H1, H2, H3, E. simpl. auto.
Qed.

End Run.

Lemma self_test_fail_fast_witness :
  (st_has_dig no_dig 0 = false \/
   st_probe no_dig 0 = [] \/
   st_answer no_dig 0 = [] \/
   st_ping no_dig 0 <> Some 0%Z \/
   st_status no_dig 0 <> "200") /\
  process_status (fst (main no_dig true true init)) <> 0%Z.
Proof.
  assert (H : st_has_dig no_dig 0 = false \/
              st_probe no_dig 0 = [] \/
              st_answer no_dig 0 = [] \/
              st_ping no_dig 0 <> Some 0%Z \/
              st_status no_dig 0 <> "200") by (left; reflexivity).
  split; [exact H|].
  apply (self_test_fail_fast no_dig true true H).
Defined.

Section AuditClaims.
Variable w : World.



End AuditClaims.


Lemma redirect_check_skipped_witness :
  "registrar" <> "blogger" /\
  redirect_check healthy "registrar" init = (Ret tt, init).
Proof.
  assert (H : "registrar" <> "blogger") by discriminate.
  split; [exact H|]. apply (redirect_check_skipped healthy "registrar" init H).
Defined.

(** A healthy configuration ends with status 0; so does one whose only
    finding is the warning about the verification host. *)
Example run_healthy :
  fst (main healthy false false init) = Exit 0%Z /\
  any_fail (stdout (snd (main healthy false false init))) = false.
Proof. vm_compute. split; reflexivity. Qed.

Example run_warning_only :
  fst (main verification_has_address false false init) = Exit 0%Z /\
  existsb is_warn
    (stdout (snd (main verification_has_address false false init))) = true.
Proof. vm_compute. split; reflexivity. Qed.

(** C6: the root domain answers [301] with an empty [Location] header.
    [redirect_check] keeps the two header lines, then raises
    [IndexError]: no line is printed and the exit status stays 0.  The
    whole run ends with that exception, without any failure line. *)
Theorem redirect_empty_location_unreported :
  let r := redirect_check empty_location "blogger" init in
  last_headers (snd r) = ["HTTP/1.1 301 Moved Permanently"; "Location:"] /\
  fst r = Raise IndexError /\
  stdout (snd r) = [] /\
  exit_code (snd r) = 0%Z /\
  trail (snd r) = [] /\
  any_fail (stdout (snd (main empty_location false false init))) = false /\
  fst (main empty_location false false init) = Raise IndexError.
Proof. vm_compute. repeat split. Qed.

(** C10: [redirect_check] raises [IndexError] on a status line of one
    word and on a [Location:] line without value; the state it leaves
    holds the fetched headers and nothing printed. *)
Theorem redirect_check_raises_on_short_lines :
  headers_lines bare_status_line 0 "https://example.com" = ["HTTP/1.1"] /\
  redirect_check bare_status_line "blogger" init =
    (Raise IndexError,
     mkState 0 ["HTTP/1.1"] []
             [CheckOutput (curl_headers_args "https://example.com")] []) /\
  headers_lines empty_location 0 "https://example.com" =
    ["HTTP/1.1 301 Moved Permanently"; "Location:"] /\
  redirect_check empty_location "blogger" init =
    (Raise IndexError,
     mkState 0 ["HTTP/1.1 301 Moved Permanently"; "Location:"] []
             [CheckOutput (curl_headers_args "https://example.com")] []).
Proof. vm_compute. repeat split. Qed.

(** C8: the domain is delegated to [ns1.example.com] and
    [ns2.example.com], which [dig] prints with the closing dot.  Both
    hostnames end with [CUSTOM_DOMAIN], yet [nameserver_sanity] prints
    no warning and reports the nameservers as correct: the pattern is
    matched against the line, dot included. *)
Theorem nameserver_sanity_glue_undetected :
  let r := nameserver_sanity glue_nameservers init in
  let ns := ["ns1.example.com."; "ns2.example.com."] in
  fst r = Ret ns /\
  map without_root_dot ns = ["ns1.example.com"; "ns2.example.com"] /\
  forallb (fun n => endswith (without_root_dot n) CUSTOM_DOMAIN) ns = true /\
  stdout (snd r) =
    [header "===== Nameserver Sanity =====";
     ok_line [Txt "Nameservers correct"]] /\
  existsb is_warn (stdout (snd r)) = false /\
  exit_code (snd r) = 0%Z.
Proof. vm_compute. repeat split. Qed.

(** C9: on a working network the self-test runs the same [dig] query
    for [TEST_HOST] twice, once as the condition and once for the value;
    when the second answer is empty it raises [IndexError]. *)
Theorem self_test_resolves_twice :
  calls (snd (self_test healthy init)) =
    [Which "dig";
     CheckOutput (dig_args TEST_HOST "A" None);
     CheckOutput (dig_args TEST_HOST "A" None);
     SubCall (ping_args "142.250.1.1");
     CheckOutput (curl_status_args "https://www.google.com")] /\
  List.length (filter is_test_host_lookup (calls (snd (self_test healthy init)))) = 2 /\
  fst (self_test flaky_resolver init) = Raise IndexError.
Proof. vm_compute. repeat split. Qed.

(* ================================================================= *)
(** ** The helpers around the external tools *)

Section Tools.
Variable w : World.







(** The lines [dig] returns hold no line terminator and begin with a
    non-empty line; there is none when the command failed.  The query
    goes to the given resolver, and to the default one when the resolver
    is absent or the empty string. *)
Theorem dig_lines_shape name rtype res s :
  let lines := dig_lines w (tick s) name rtype res in
  dig w name rtype res s =
    (Ret lines, log_call (CheckOutput (dig_args name rtype res)) s) /\
  Forall (fun l => no_linebreak l = true) lines /\
  hd_error lines <> Some "" /\
  (check_output_at w (tick s) (dig_args name rtype res) = None -> lines = []) /\
  dig_args name rtype (Some "") = dig_args name rtype None /\
  (forall r, r <> "" ->
     dig_args name rtype (Some r) =
     ["dig"; "+short"; "-t"; rtype; name; "@" ++ r]).
Proof.
  intros lines. repeat split.
  - apply splitlines_no_linebreak.
  - destruct lines as [|x rest] eqn:E; [discriminate|].
    intros H. inversion H; subst.
    now apply (dig_first_nonempty w _ _ _ _ _ _ E).
  - intros H. subst lines. unfold dig_lines, run_output, captured_text.
    now rewrite H.
  - intros r Hr. unfold dig_args, truthy.
    destruct (String.eqb_spec r ""); [contradiction|reflexivity].
Qed.

(** The two status checks of the [www] host are both made, whatever the
    first one finds: two fetches, two lines, and the exit status or-ed
    with each flag in turn.  The function always returns. *)
Theorem https_status_reports s :
  let st1 := run_output w (tick s)
               (curl_status_args ("https://www." ++ CUSTOM_DOMAIN)) in
  let st2 := run_output w (S (tick s))
               (curl_status_args ("http://www." ++ CUSTOM_DOMAIN)) in
  let ok1 := String.eqb st1 "200" in
  let ok2 := String.eqb st2 "301" in
  let v1 := Z.lor (exit_code s) (Z.b2z (negb ok1)) in
  let v2 := Z.lor v1 (Z.b2z (negb ok2)) in
  https_status w s =
    (Ret tt,
     mkState v2 (last_headers s)
       (stdout s ++
        [header "===== Blogger HTTPS Status =====";
         mkOut (if ok1 then OK else FAIL) [Txt "HTTPS enabled"];
         mkOut (if ok2 then OK else FAIL) [Txt "HTTP→HTTPS redirect enabled"]])%list
       (calls s ++
        [CheckOutput (curl_status_args ("https://www." ++ CUSTOM_DOMAIN));
         CheckOutput (curl_status_args ("http://www." ++ CUSTOM_DOMAIN))])%list
       (trail s ++ [v1; v2])%list) /\
  v2 = Z.lor (exit_code s) (Z.b2z (negb (ok1 && ok2))).
Proof.
  intros st1 st2 ok1 ok2 v1 v2. subst v2 v1 ok2 ok1 st2 st1.
  split.
  - unfold https_status. run_py.
    unfold or_exit_code. cbn [exit_code last_headers stdout calls trail].
    rewrite <- !app_assoc. reflexivity.
  - rewrite <- Z.lor_assoc. f_equal.
    destruct (String.eqb _ "200"), (String.eqb _ "301"); reflexivity.
Qed.

(** [advanced_diagnostics] prints and runs a tool only after [which]
    found it, never touches the exit status or the captured headers, and
    can only fail with [OSError], when a tool found by [which] cannot be
    started.  With neither tool installed it makes the two lookups and
    nothing else. *)
Theorem advanced_diagnostics_optional s :
  let r := advanced_diagnostics w s in
  let trace := SubCall ["traceroute"; "-m4"; CUSTOM_DOMAIN] in
  let finder := SubCall ["subfinder"; "-silent"; "-d"; CUSTOM_DOMAIN] in
  exit_code (snd r) = exit_code s /\
  last_headers (snd r) = last_headers s /\
  trail (snd r) = trail s /\
  (fst r = Ret tt \/ fst r = Raise OSError) /\
  (In trace (calls (snd r)) -> ~ In trace (calls s) ->
   which_at w (tick s) "traceroute" = true) /\
  (which_at w (tick s) "traceroute" = false ->
   which_at w (S (tick s)) "subfinder" = false ->
   r = (Ret tt,
        mkState (exit_code s) (last_headers s) (stdout s)
          (calls s ++ [Which "traceroute"; Which "subfinder"])%list (trail s))).
Proof.
  intros r trace finder. subst r trace finder.
  unfold advanced_diagnostics. run_py.
  destruct (which_at w (List.length (calls s)) "traceroute") eqn:Ht; cbn [when]; run_py.
  - rewrite bind_subprocess_call. run_py.
    destruct (call_at w (S (List.length (calls s))) _) as [rc|].
    + run_py.
      destruct (which_at w _ "subfinder") eqn:Hf; cbn [when]; run_py.
      * rewrite bind_subprocess_call. run_py.
        destruct (call_at w _ _) as [rc'|]; run_py;
          cbn [fst snd exit_code last_headers trail calls];
          repeat split; auto; discriminate.
      * cbn [fst snd exit_code last_headers trail calls].
        repeat split; auto; discriminate.
    + cbn [fst snd exit_code last_headers trail calls].
      repeat split; auto; discriminate.
  - destruct (which_at w (S (List.length (calls s))) "subfinder") eqn:Hf;
      cbn [when]; run_py.
    + rewrite bind_subprocess_call. run_py.
      destruct (call_at w _ _) as [rc'|]; run_py;
        cbn [fst snd exit_code last_headers trail calls];
        repeat split; auto; try discriminate;
        intros Hin Hnot; exfalso;
        apply in_app_or in Hin as [Hin|Hin]; [contradiction| |contradiction|];
        simpl in Hin; intuition discriminate.
    + cbn [fst snd exit_code last_headers trail calls].
      repeat split; auto.
      intros Hin Hnot; exfalso.
      apply in_app_or in Hin as [Hin|Hin]; [contradiction|].
      simpl in Hin; intuition discriminate.
Qed.

(** [debug_info] runs the trace once and prints the captured headers,
    joined by line feeds, when there are any; without captured headers
    it prints its heading only.  It changes neither the exit status nor
    the headers, and fails only when the trace cannot be started. *)
Theorem debug_info_dump s :
  let trace := SubCall ["dig"; "+trace"; CUSTOM_DOMAIN] in
  let hdr := header "===== DEBUG =====" in
  debug_info w s =
  match call_at w (tick s) ["dig"; "+trace"; CUSTOM_DOMAIN] with
  | None =>
      (Raise OSError,
       mkState (exit_code s) (last_headers s) (stdout s ++ [hdr])%list
               (calls s ++ [trace])%list (trail s))
  | Some _ =>
      (Ret tt,
       mkState (exit_code s) (last_headers s)
         (stdout s ++ hdr ::
            match last_headers s with
            | [] => []
            | _ :: _ => [mkOut PLAIN [Txt (String.concat nl (last_headers s))]]
            end)%list
         (calls s ++ [trace])%list (trail s))
  end.
Proof.
  intros trace hdr. subst trace hdr.
  unfold debug_info. run_py. rewrite bind_subprocess_call. run_py.
  destruct (call_at w (List.length (calls s)) _) as [rc|]; [|reflexivity].
  run_py. destruct (last_headers s) as [|h hs] eqn:E; cbn [nonempty when].
  - reflexivity.
  - unfold print. cbn [exit_code last_headers stdout calls trail].
    rewrite <- app_assoc. reflexivity.
Qed.

End Tools.

(* ================================================================= *)
(** ** More on the stages *)

Section StageDetails.
Variable w : World.

Lemma truthy_nonempty x : x <> "" -> truthy x = true.
Proof.
  intros H. unfold truthy. destruct (String.eqb_spec x ""); [contradiction|reflexivity].
Qed.

(** The self-test returns exactly when every step succeeds; it then
    prints its five lines, has made its five calls and leaves the exit
    status as it was.  In every other case the run stops inside it. *)
Theorem self_test_returns_iff s :
  let t := tick s in
  if self_test_passes w t
  then
    self_test w s =
      (Ret tt,
       mkState (exit_code s) (last_headers s)
         (stdout s ++
          [mkOut PLAIN [Txt (nl ++ "===== blog-check.py v" ++ VERSION ++ " — Self‑Test =====")];
           ok_line [Txt "DNS resolves "; Txt TEST_HOST; Txt " → "; Txt (st_ip w t)];
           ok_line [Txt "ping OK"];
           ok_line [Txt "HTTPS OK"];
           mkOut PLAIN [Txt "✔ Self‑tests passed"]])%list
         (calls s ++
          [Which "dig";
           CheckOutput (dig_args TEST_HOST "A" None);
           CheckOutput (dig_args TEST_HOST "A" None);
           SubCall (ping_args (st_ip w t));
           CheckOutput (curl_status_args ("https://" ++ TEST_HOST))])%list
         (trail s ++ [exit_code s])%list)
  else aborted (fst (self_test w s)) = true.
Proof.
  cbv zeta.
  unfold self_test_passes, st_has_dig, st_probe, st_ping, st_status, st_ip, st_answer.
  unfold self_test. run_py.
  destruct (which_at w (List.length (calls s)) "dig"); cbn [negb when andb]; run_py;
    [|reflexivity].
  destruct (dig_lines w (S (List.length (calls s))) TEST_HOST "A" None)
    as [|p0 probe]; cbn [nonempty andb]; run_py.
  { cbn [truthy String.eqb negb when]. run_py. reflexivity. }
  rewrite bind_getitem.
  destruct (dig_lines w (S (S (List.length (calls s)))) TEST_HOST "A" None)
    as [|ip answer] eqn:Hanswer; cbn [nth_error hd nonempty andb]; [reflexivity|].
  run_py.
  rewrite (truthy_nonempty ip (dig_first_nonempty w _ _ _ _ _ _ Hanswer)).
  cbn [negb when]. run_py. rewrite bind_ping. run_py.
  destruct (call_at w (S (S (S (List.length (calls s))))) (ping_args ip))
    as [rc|]; cbn [andb]; [|reflexivity].
  run_py.
  destruct (Z.eqb rc 0); cbn [negb when andb]; run_py; [|reflexivity].
  destruct (String.eqb _ "200"); cbn [negb when]; run_py; [|reflexivity].
  unfold print, ok_line. cbn [exit_code last_headers stdout calls trail Z.b2z].
  rewrite <- !app_assoc, Z.lor_0_r. reflexivity.
Qed.

(** When the test host does not resolve, the self-test stops without
    sending a ping or fetching anything: it has asked [which] and [dig]
    once each, and it prints two failures, the second one being
    ["ping failed"] although no ping was sent. *)
Theorem self_test_unresolved s :
  st_has_dig w (tick s) = true ->
  nonempty (st_probe w (tick s)) = false ->
  let v := Z.lor (exit_code s) 1 in
  self_test w s =
    (Exit (Z.lor v 1),
     mkState (Z.lor v 1) (last_headers s)
       (stdout s ++
        [mkOut PLAIN [Txt (nl ++ "===== blog-check.py v" ++ VERSION ++ " — Self‑Test =====")];
         fail_line [Txt "DNS resolves "; Txt TEST_HOST; Txt " → "; Txt ""];
         fail_line [Txt "ping failed"]])%list
       (calls s ++ [Which "dig"; CheckOutput (dig_args TEST_HOST "A" None)])%list
       (trail s ++ [v; Z.lor v 1])%list).
Proof.
  intros Hdig Hprobe v. subst v. unfold st_has_dig, st_probe in *.
  unfold self_test. run_py. rewrite Hdig. cbn [negb when]. run_py.
  destruct (dig_lines w (S (List.length (calls s))) TEST_HOST "A" None);
    [|discriminate Hprobe].
  cbn [nonempty]. run_py. cbn [truthy String.eqb negb when]. run_py.
  cbn [when]. run_py. reflexivity.
Qed.

(** Two suffixes of one string: one of them ends with the other. *)
Lemma suffixes_comparable s p q :
  endswith s p = true -> endswith s q = true ->
  endswith p q = true \/ endswith q p = true.
Proof.
  induction s as [|c r IH]; cbn [endswith]; rewrite !orb_true_iff, !String.eqb_eq.
  - intros [<-|H] [<-|H']; try discriminate. left. reflexivity.
  - intros [<-|Hp] [<-|Hq].
    + left. cbn [endswith]. now rewrite String.eqb_refl.
    + left. cbn [endswith]. now rewrite Hq, orb_true_r.
    + right. cbn [endswith]. now rewrite Hp, orb_true_r.
    + now apply IH.
Qed.

(** [dig] prints names with their closing dot.  When every nameserver
    it returned ends with a dot, none is taken for a glue nameserver,
    whatever domain it is under: the check reports success. *)
Theorem nameserver_sanity_misses_dotted_names s :
  let ns := dig_lines w (tick s) CUSTOM_DOMAIN "NS" None in
  forallb (fun n => endswith n ".") ns = true ->
  nameserver_sanity w s =
    (Ret ns,
     mkState (exit_code s) (last_headers s)
       (stdout s ++
        [header "===== Nameserver Sanity =====";
         ok_line [Txt "Nameservers correct"]])%list
       (calls s ++ [CheckOutput (dig_args CUSTOM_DOMAIN "NS" None)])%list
       (trail s)).
Proof.
  intros ns Hdots.
  assert (G : existsb (re_search_literal_eol CUSTOM_DOMAIN) ns = false).
  { apply not_true_is_false. intros H.
    apply existsb_exists in H as (n & Hin & Hn).
    rewrite forallb_forall in Hdots. specialize (Hdots n Hin).
    pose proof (splitlines_no_linebreak
                  (run_output w (tick s) (dig_args CUSTOM_DOMAIN "NS" None))) as Hnl.
    rewrite Forall_forall in Hnl. specialize (Hnl n Hin).
    rewrite (re_search_is_endswith _ _ Hnl) in Hn.
    destruct (suffixes_comparable n CUSTOM_DOMAIN "." Hn Hdots) as [H|H];
      vm_compute in H; discriminate. }
  unfold nameserver_sanity. run_py. fold ns. rewrite G. run_py. reflexivity.
Qed.

Lemma parse_location_absent hs :
  existsb (fun l => startswith l "Location:") hs = false ->
  parse_location hs = Some "".
Proof.
  induction hs as [|l rest IH]; cbn [existsb parse_location]; [reflexivity|].
  destruct (startswith l "Location:"); [discriminate|]. exact IH.
Qed.

(** Only a header line that begins with [Location:], in this spelling,
    is read as the redirect target.  When no line does, the check fails
    for every status, a correct redirect under another spelling of the
    header name included. *)
Theorem redirect_check_needs_exact_header_name s status :
  let hs := headers_lines w (tick s) ("https://" ++ CUSTOM_DOMAIN) in
  existsb (fun l => startswith l "Location:") hs = false ->
  parse_status hs = Some status ->
  let r := redirect_check w "blogger" s in
  fst r = Ret tt /\
  stdout (snd r) = (stdout s ++ [fail_line [Txt "HTTP 301 → www"]])%list /\
  exit_code (snd r) = Z.lor (exit_code s) 1 /\
  exit_code (snd r) <> 0%Z.
Proof.
  intros hs Hloc Hst r. subst r.
  pose proof (redirect_check_blogger w s) as E. cbv zeta in E.
  fold hs in E. rewrite Hst, (parse_location_absent hs Hloc) in E. rewrite E.
  assert (Hok : redirect_ok status "" = false).
  { unfold redirect_ok. apply andb_false_r. }
  rewrite Hok. cbn [fst snd stdout exit_code negb Z.b2z].
  repeat split. apply lor_1_nonzero.
Qed.

End StageDetails.

Lemma same_records_forallb a b must :
  same_records a b = true ->
  forallb (contains a) must = forallb (contains b) must.
Proof.
  unfold same_records. rewrite andb_true_iff, !contains_all_incl.
  intros [Hab Hba]. apply eq_iff_eq_true. rewrite !contains_all_incl.
  split; intros H x Hx; auto.
Qed.

(** The mode returned by [root_a_record_check] depends on which
    addresses the answer holds, not on their order or number. *)
Theorem root_a_record_check_ignores_order w w' s s' :
  same_records (dig_lines w (tick s) CUSTOM_DOMAIN "A" None)
               (dig_lines w' (tick s') CUSTOM_DOMAIN "A" None) = true ->
  fst (root_a_record_check w s) = fst (root_a_record_check w' s').
Proof.
  intros H.
  pose proof (same_records_forallb _ _ BLOGGER_IPS H) as HB.
  pose proof (same_records_forallb _ _ FORWARD_IPS H) as HF.
  unfold root_a_record_check. run_py. rewrite HB, HF.
  destruct (forallb (contains (dig_lines w' _ _ _ _)) BLOGGER_IPS); run_py;
    [reflexivity|].
  destruct (forallb (contains (dig_lines w' _ _ _ _)) FORWARD_IPS); run_py;
    reflexivity.
Qed.

Lemma self_test_unresolved_witness :
  st_has_dig unresolvable (tick init) = true /\
  nonempty (st_probe unresolvable (tick init)) = false /\
  fst (self_test unresolvable init) = Exit 1%Z.
Proof.
  split; [reflexivity|]. split; [reflexivity|].
  rewrite (self_test_unresolved unresolvable init eq_refl eq_refl).
  reflexivity.
Defined.

Lemma nameserver_sanity_misses_dotted_names_witness :
  dig_lines glue_nameservers (tick init) CUSTOM_DOMAIN "NS" None =
    ["ns1.example.com."; "ns2.example.com."] /\
  existsb is_warn (stdout (snd (nameserver_sanity glue_nameservers init))) = false.
Proof.
  split; [reflexivity|].
  rewrite (nameserver_sanity_misses_dotted_names glue_nameservers init eq_refl).
  reflexivity.
Defined.

Lemma redirect_check_needs_exact_header_name_witness :
  headers_lines lowercase_location (tick init) ("https://" ++ CUSTOM_DOMAIN) =
    ["HTTP/2 301"; "location: https://www.example.com/"] /\
  exit_code (snd (redirect_check lowercase_location "blogger" init)) = 1%Z.
Proof.
  split; [reflexivity|].
  destruct (redirect_check_needs_exact_header_name lowercase_location init "301"
              eq_refl eq_refl) as (_ & _ & He & _).
  exact He.
Defined.

Lemma root_a_record_check_ignores_order_witness :
  same_records (dig_lines healthy (tick init) CUSTOM_DOMAIN "A" None)
               (dig_lines shuffled_records (tick init) CUSTOM_DOMAIN "A" None)
    = true /\
  fst (root_a_record_check shuffled_records init) = Ret "blogger".
Proof.
  split; [reflexivity|].
  rewrite <- (root_a_record_check_ignores_order healthy shuffled_records
                init init eq_refl).
  reflexivity.
Defined.

(* ================================================================= *)
(** ** What the stages leave alone *)

Section Frames.
Variable w : World.

Lemma keeps_headers_ret {A} (a : A) : keeps_headers (ret a).
Proof. intros s. reflexivity. Qed.

Lemma keeps_headers_raise {A} e : keeps_headers (@raise A e).
Proof. intros s. reflexivity. Qed.

Lemma keeps_headers_sys_exit {A} : keeps_headers (@sys_exit A).
Proof. intros s. reflexivity. Qed.

Lemma keeps_headers_bind {A B} (m : M A) (k : A -> M B) :
  keeps_headers m -> (forall a, keeps_headers (k a)) -> keeps_headers (bind m k).
Proof.
  intros Hm Hk s. unfold bind. specialize (Hm s).
  destruct (m s) as [[a|c|e] s1]; simpl in *; auto.
  now rewrite Hk.
Qed.

Lemma keeps_headers_print kd t : keeps_headers (print kd t).
Proof. intros s. reflexivity. Qed.

Lemma keeps_headers_print_status ok msg : keeps_headers (print_status ok msg).
Proof. intros s. reflexivity. Qed.

Lemma keeps_headers_print_warning msg : keeps_headers (print_warning msg).
Proof. intros s. reflexivity. Qed.

Lemma keeps_headers_or_exit_code b : keeps_headers (or_exit_code b).
Proof. intros s. reflexivity. Qed.

Lemma keeps_headers_get : keeps_headers get_last_headers.
Proof. intros s. reflexivity. Qed.

Lemma keeps_headers_which cmd : keeps_headers (which w cmd).
Proof. intros s. reflexivity. Qed.

Lemma keeps_headers_run cmd : keeps_headers (run w cmd).
Proof. intros s. reflexivity. Qed.

Lemma keeps_headers_dig name rtype res : keeps_headers (dig w name rtype res).
Proof. intros s. reflexivity. Qed.

Lemma keeps_headers_curl_status url : keeps_headers (curl_status w url).
Proof. intros s. reflexivity. Qed.

Lemma keeps_headers_subprocess_call argv : keeps_headers (subprocess_call w argv).
Proof.
  intros s. unfold subprocess_call. destruct (call_at w (tick s) argv); reflexivity.
Qed.

Lemma keeps_headers_ping ip : keeps_headers (ping w ip).
Proof.
  apply keeps_headers_bind; [apply keeps_headers_subprocess_call|].
  intros. apply keeps_headers_ret.
Qed.

Lemma keeps_headers_getitem {A} (l : list A) i : keeps_headers (getitem l i).
Proof. intros s. unfold getitem. destruct (nth_error l i); reflexivity. Qed.

Lemma keeps_headers_when c body : keeps_headers body -> keeps_headers (when c body).
Proof. destruct c; simpl; auto using keeps_headers_ret. Qed.

Lemma keeps_headers_for_each {A} (l : list A) body :
  (forall x, keeps_headers (body x)) -> keeps_headers (for_each l body).
Proof.
  intros Hb. induction l as [|x l IH]; simpl.
  - apply keeps_headers_ret.
  - apply keeps_headers_bind; auto.
Qed.

End Frames.

Create HintDb frame discriminated.

#[local] Hint Resolve keeps_headers_ret keeps_headers_raise keeps_headers_sys_exit
  keeps_headers_print keeps_headers_print_status keeps_headers_print_warning
  keeps_headers_or_exit_code keeps_headers_get keeps_headers_which
  keeps_headers_run keeps_headers_dig keeps_headers_curl_status
  keeps_headers_subprocess_call keeps_headers_ping keeps_headers_getitem : frame.

Ltac frame :=
  repeat first
    [ solve [auto with frame]
    | apply keeps_headers_when
    | apply keeps_headers_for_each; intros
    | apply keeps_headers_bind; [|intros]
    | match goal with
      | |- keeps_headers (if ?c then _ else _) => destruct c
      | |- keeps_headers (let (_, _) := ?p in _) => destruct p
      end ].

Section FrameClaims.
Variable w : World.

Lemma keeps_headers_count_matching fqdn cname rs :
  keeps_headers (count_matching w fqdn cname rs).
Proof. induction rs as [|r rest IH]; cbn [count_matching]; frame. Qed.

Lemma keeps_headers_audit_host ns_list p : keeps_headers (audit_host w ns_list p).
Proof.
  pose proof keeps_headers_count_matching.
  unfold audit_host. frame.
Qed.

Lemma keeps_headers_self_test : keeps_headers (self_test w).
Proof. unfold self_test. frame. Qed.

Lemma keeps_headers_nameserver_sanity : keeps_headers (nameserver_sanity w).
Proof. unfold nameserver_sanity. frame. Qed.

Lemma keeps_headers_dns_audit ns_list : keeps_headers (dns_audit w ns_list).
Proof. pose proof keeps_headers_audit_host. unfold dns_audit. frame. Qed.

Lemma keeps_headers_root_a_record_check : keeps_headers (root_a_record_check w).
Proof. unfold root_a_record_check. frame. Qed.

Lemma keeps_headers_https_status : keeps_headers (https_status w).
Proof. unfold https_status. frame. Qed.

Lemma keeps_headers_advanced_diagnostics : keeps_headers (advanced_diagnostics w).
Proof. unfold advanced_diagnostics. frame. Qed.

Lemma keeps_headers_debug_info : keeps_headers (debug_info w).
Proof. unfold debug_info. frame. Qed.

(** [last_headers] has one writer: the self-test, the nameserver check,
    the DNS audit, the root A-record check, the HTTPS status check and
    the two optional stages all leave it as they found it, however they
    end. *)
Theorem only_redirect_check_writes_headers ns_list s :
  last_headers (snd (self_test w s)) = last_headers s /\
  last_headers (snd (nameserver_sanity w s)) = last_headers s /\
  last_headers (snd (dns_audit w ns_list s)) = last_headers s /\
  last_headers (snd (root_a_record_check w s)) = last_headers s /\
  last_headers (snd (https_status w s)) = last_headers s /\
  last_headers (snd (advanced_diagnostics w s)) = last_headers s /\
  last_headers (snd (debug_info w s)) = last_headers s.
Proof.
  split; [apply keeps_headers_self_test|].
  split; [apply keeps_headers_nameserver_sanity|].
  split; [apply keeps_headers_dns_audit|].
  split; [apply keeps_headers_root_a_record_check|].
  split; [apply keeps_headers_https_status|].
  split; [apply keeps_headers_advanced_diagnostics|].
  apply keeps_headers_debug_info.
Qed.

End FrameClaims.

(* ================================================================= *)
(** ** Where the captured headers come from *)

Section CallLog.
Variable w : World.

Lemma extends_calls_unchanged {A} (m : M A) :
  (forall s, calls (snd (m s)) = calls s) -> extends_calls m.
Proof. intros H s. exists []. now rewrite H, app_nil_r. Qed.

Lemma extends_calls_bind {A B} (m : M A) (k : A -> M B) :
  extends_calls m -> (forall a, extends_calls (k a)) -> extends_calls (bind m k).
Proof.
  intros Hm Hk s. unfold bind. destruct (Hm s) as [more1 E1].
  destruct (m s) as [[a|c|e] s1]; simpl in *; eauto.
  destruct (Hk a s1) as [more2 E2].
  exists (more1 ++ more2)%list. now rewrite E2, E1, app_assoc.
Qed.

Lemma extends_calls_ret {A} (a : A) : extends_calls (ret a).
Proof. now apply extends_calls_unchanged. Qed.

Lemma extends_calls_raise {A} e : extends_calls (@raise A e).
Proof. now apply extends_calls_unchanged. Qed.

Lemma extends_calls_sys_exit {A} : extends_calls (@sys_exit A).
Proof. now apply extends_calls_unchanged. Qed.

Lemma extends_calls_print kd t : extends_calls (print kd t).
Proof. now apply extends_calls_unchanged. Qed.

Lemma extends_calls_print_status ok msg : extends_calls (print_status ok msg).
Proof. now apply extends_calls_unchanged. Qed.

Lemma extends_calls_print_warning msg : extends_calls (print_warning msg).
Proof. now apply extends_calls_unchanged. Qed.

Lemma extends_calls_or_exit_code b : extends_calls (or_exit_code b).
Proof. now apply extends_calls_unchanged. Qed.

Lemma extends_calls_set_last_headers h : extends_calls (set_last_headers h).
Proof. now apply extends_calls_unchanged. Qed.

Lemma extends_calls_get_last_headers : extends_calls get_last_headers.
Proof. now apply extends_calls_unchanged. Qed.

Lemma extends_calls_which cmd : extends_calls (which w cmd).
Proof. intros s. now exists [Which cmd]. Qed.

Lemma extends_calls_run cmd : extends_calls (run w cmd).
Proof. intros s. now exists [CheckOutput cmd]. Qed.

Lemma extends_calls_dig name rtype res : extends_calls (dig w name rtype res).
Proof. intros s. now exists [CheckOutput (dig_args name rtype res)]. Qed.

Lemma extends_calls_curl_status url : extends_calls (curl_status w url).
Proof. apply extends_calls_run. Qed.

Lemma extends_calls_curl_headers url : extends_calls (curl_headers w url).
Proof. intros s. now exists [CheckOutput (curl_headers_args url)]. Qed.

Lemma extends_calls_subprocess_call argv : extends_calls (subprocess_call w argv).
Proof.
  intros s. exists [SubCall argv]. unfold subprocess_call.
  destruct (call_at w (tick s) argv); reflexivity.
Qed.

Lemma extends_calls_ping ip : extends_calls (ping w ip).
Proof.
  apply extends_calls_bind; [apply extends_calls_subprocess_call|].
  intros. apply extends_calls_ret.
Qed.

Lemma extends_calls_getitem {A} (l : list A) i : extends_calls (getitem l i).
Proof.
  unfold getitem. destruct (nth_error l i);
    [apply extends_calls_ret | apply extends_calls_raise].
Qed.

Lemma extends_calls_when c body : extends_calls body -> extends_calls (when c body).
Proof. destruct c; simpl; auto using extends_calls_ret. Qed.

Lemma extends_calls_for_each {A} (l : list A) body :
  (forall x, extends_calls (body x)) -> extends_calls (for_each l body).
Proof.
  intros Hb. induction l as [|x l IH]; simpl.
  - apply extends_calls_ret.
  - apply extends_calls_bind; auto.
Qed.

End CallLog.

Create HintDb calls discriminated.

#[local] Hint Resolve extends_calls_ret extends_calls_raise extends_calls_sys_exit
  extends_calls_print extends_calls_print_status extends_calls_print_warning
  extends_calls_or_exit_code extends_calls_set_last_headers
  extends_calls_get_last_headers extends_calls_which extends_calls_run
  extends_calls_dig extends_calls_curl_status extends_calls_curl_headers
  extends_calls_subprocess_call extends_calls_ping extends_calls_getitem : calls.

Ltac grow :=
  repeat first
    [ solve [auto with calls]
    | apply extends_calls_when
    | apply extends_calls_for_each; intros
    | apply extends_calls_bind; [|intros]
    | match goal with
      | |- extends_calls (if ?c then _ else _) => destruct c
      | |- extends_calls (let (_, _) := ?p in _) => destruct p
      end ].

Section HeaderProvenance.
Variable w : World.

Lemma extends_calls_count_matching fqdn cname rs :
  extends_calls (count_matching w fqdn cname rs).
Proof. induction rs as [|r rest IH]; cbn [count_matching]; grow. Qed.

Lemma extends_calls_audit_host ns_list p : extends_calls (audit_host w ns_list p).
Proof. pose proof extends_calls_count_matching. unfold audit_host. grow. Qed.

Lemma extends_calls_self_test : extends_calls (self_test w).
Proof. unfold self_test. grow. Qed.

Lemma extends_calls_nameserver_sanity : extends_calls (nameserver_sanity w).
Proof. unfold nameserver_sanity. grow. Qed.

Lemma extends_calls_dns_audit ns_list : extends_calls (dns_audit w ns_list).
Proof. pose proof extends_calls_audit_host. unfold dns_audit. grow. Qed.

Lemma extends_calls_root_a_record_check : extends_calls (root_a_record_check w).
Proof. unfold root_a_record_check. grow. Qed.

Lemma extends_calls_next_location hs : extends_calls (next_location hs).
Proof. induction hs as [|l rest IH]; cbn [next_location]; grow. Qed.

Lemma extends_calls_redirect_check mode : extends_calls (redirect_check w mode).
Proof. pose proof extends_calls_next_location. unfold redirect_check. grow. Qed.

Lemma extends_calls_https_status : extends_calls (https_status w).
Proof. unfold https_status. grow. Qed.

Lemma extends_calls_advanced_diagnostics : extends_calls (advanced_diagnostics w).
Proof. unfold advanced_diagnostics. grow. Qed.

Lemma extends_calls_debug_info : extends_calls (debug_info w).
Proof. unfold debug_info. grow. Qed.

Lemma headers_from_fetch_keeps {A} (m : M A) :
  keeps_headers m -> headers_from_fetch w m.
Proof. intros H s. left. apply H. Qed.

(** A fetch that the first part made is still in the log, at the same
    place, after the second part. *)
Lemma headers_from_fetch_bind {A B} (m : M A) (k : A -> M B) :
  extends_calls m /\ headers_from_fetch w m ->
  (forall a, extends_calls (k a) /\ headers_from_fetch w (k a)) ->
  extends_calls (bind m k) /\ headers_from_fetch w (bind m k).
Proof.
  intros [Em Hm] Hk. split.
  { apply extends_calls_bind; [exact Em | intros a; apply Hk]. }
  intros s. unfold bind. specialize (Hm s). destruct (Em s) as [more1 E1].
  destruct (m s) as [[a|c|e] s1]; simpl in *; auto.
  destruct (Hk a) as [Ek Hka].
  destruct (Ek s1) as [more2 E2].
  destruct (Hka s1) as [H|(t & Ht & Hn & Hl)].
  - destruct Hm as [Hm|(t & Ht & Hn & Hl)].
    + left. congruence.
    + right. exists t. split; [exact Ht|]. split.
      * rewrite E2. rewrite nth_error_app1; [exact Hn|].
        apply nth_error_Some. congruence.
      * congruence.
  - right. exists t. split; [|split; assumption].
    unfold tick in *. rewrite E1, length_app in Ht. lia.
Qed.

Lemma headers_from_fetch_redirect_check mode :
  headers_from_fetch w (redirect_check w mode).
Proof.
  intros s. destruct (String.eqb_spec mode "blogger") as [->|Hm].
  - right. exists (tick s). split; [lia|].
    pose proof (redirect_check_blogger w s) as E. cbv zeta in E. rewrite E.
    unfold holds_fetch, root_headers_fetch.
    destruct (parse_status _); [destruct (parse_location _)|];
      cbn [snd calls last_headers];
      (split; [|reflexivity]);
      unfold tick; rewrite nth_error_app2, Nat.sub_diag; auto.
  - left. unfold redirect_check.
    destruct (String.eqb_spec mode "blogger"); [contradiction|reflexivity].
Qed.

Lemma main_tracks_headers advanced debug :
  extends_calls (main w advanced debug) /\
  headers_from_fetch w (main w advanced debug).
Proof.
  unfold main.
  repeat first
    [ split; [apply extends_calls_self_test
             | apply headers_from_fetch_keeps, keeps_headers_self_test]
    | split; [apply extends_calls_nameserver_sanity
             | apply headers_from_fetch_keeps, keeps_headers_nameserver_sanity]
    | split; [apply extends_calls_dns_audit
             | apply headers_from_fetch_keeps, keeps_headers_dns_audit]
    | split; [apply extends_calls_root_a_record_check
             | apply headers_from_fetch_keeps, keeps_headers_root_a_record_check]
    | split; [apply extends_calls_redirect_check
             | apply headers_from_fetch_redirect_check]
    | split; [apply extends_calls_https_status
             | apply headers_from_fetch_keeps, keeps_headers_https_status]
    | split; [apply extends_calls_when, extends_calls_advanced_diagnostics
             | apply headers_from_fetch_keeps, keeps_headers_when,
                 keeps_headers_advanced_diagnostics]
    | split; [apply extends_calls_when, extends_calls_debug_info
             | apply headers_from_fetch_keeps, keeps_headers_when,
                 keeps_headers_debug_info]
    | split; [apply extends_calls_sys_exit
             | apply headers_from_fetch_keeps, keeps_headers_sys_exit]
    | apply headers_from_fetch_bind; [|intros] ].
Qed.

(** However a run ends, the headers it holds then are none, or they are
    the answer to a fetch of the root headers that this run made: some
    call number [t] of its log is that fetch, and the headers are the
    lines the world answered to call number [t]. *)
Theorem main_headers_come_from_fetch advanced debug :
  let final := snd (main w advanced debug init) in
  last_headers final = [] \/
  exists t,
    nth_error (calls final) t =
      Some (CheckOutput (curl_headers_args ("https://" ++ CUSTOM_DOMAIN))) /\
    last_headers final = headers_lines w t ("https://" ++ CUSTOM_DOMAIN).
Proof.
  intros final. subst final.
  destruct (main_tracks_headers advanced debug) as [_ H].
  destruct (H init) as [H0|(t & _ & Hn & Hl)].
  - left. exact H0.
  - right. exists t. split; [exact Hn | exact Hl].
Qed.

End HeaderProvenance.

(* ================================================================= *)
(** ** The DNS audit as a whole, and the optional stages *)

Section AuditWhole.
Variable w : World.

Lemma audit_host_returns ns_list p s :
  fst (audit_host w ns_list p s) = Ret tt.
Proof.
  destruct p as [host expected].
  pose proof (audit_host_spec w ns_list host expected s) as E. cbv zeta in E.
  rewrite E. destruct (dig_lines w (tick s) _ "CNAME" None); reflexivity.
Qed.

(** One iteration of the audit never raises, and asks every resolver
    once: the local one first, then, when it answered, the address
    lookup of the verification host, each public resolver in order and
    each nameserver of [ns_list] in order.  A host without CNAME costs
    the one local query. *)
Theorem audit_host_queries_once ns_list host expected s :
  let fqdn := host ++ "." ++ CUSTOM_DOMAIN in
  let r := audit_host w ns_list (host, expected) s in
  fst r = Ret tt /\
  calls (snd r) =
    (calls s ++
     CheckOutput (dig_args fqdn "CNAME" None) ::
     match dig_lines w (tick s) fqdn "CNAME" None with
     | [] => []
     | _ :: _ =>
         (if String.eqb host CNAME_1_HOST
          then [CheckOutput (dig_args fqdn "A" None)] else []) ++
         map (fun r => CheckOutput (dig_args fqdn "CNAME" (Some r)))
             (RESOLVERS ++ ns_list)
     end)%list.
Proof.
  intros fqdn r. subst r.
  split; [apply audit_host_returns|].
  pose proof (audit_host_spec w ns_list host expected s) as E. cbv zeta in E.
  fold fqdn in E. rewrite E.
  destruct (dig_lines w (tick s) fqdn "CNAME" None); [reflexivity|].
  cbn [snd calls]. unfold cname_queries. rewrite map_app. reflexivity.
Qed.

(** [dns_audit] always returns, for every nameserver list and whatever
    the resolvers answer: no lookup result can make it raise or exit.
    It prints its heading first, and it leaves the exit status or-ed
    with 1 exactly when it printed a failure. *)
Theorem dns_audit_always_returns ns_list s :
  let r := dns_audit w ns_list s in
  fst r = Ret tt /\
  exists out,
    stdout (snd r) = (stdout s ++ header "===== DNS Audit =====" :: out)%list /\
    exit_code (snd r) = Z.lor (exit_code s) (Z.b2z (any_fail out)).
Proof.
  intros r. subst r. unfold dns_audit. rewrite bind_print.
  set (s0 := mkState _ _ _ _ _).
  assert (Hret : forall hosts s1, fst (for_each hosts (audit_host w ns_list) s1) = Ret tt).
  { induction hosts as [|p hosts IH]; intros s1; [reflexivity|].
    cbn [for_each]. unfold bind.
    pose proof (audit_host_returns ns_list p s1) as Hp.
    destruct (audit_host w ns_list p s1) as [o s2]. simpl in Hp. subst o.
    apply IH. }
  split; [apply Hret|].
  destruct (accumulates_for_each
              [("www", WWW_TARGET); (BLOG_SUBDOMAIN, BLOGSPOT_DOMAIN);
               (CNAME_1_HOST, CNAME_1_TARGET)]
              (audit_host w ns_list) (accumulates_audit_host w ns_list) s0)
    as [(out & vs & Ho & _ & _ & _ & He) _].
  exists out. subst s0. cbn [stdout exit_code] in Ho, He.
  split; [rewrite Ho, <- app_assoc; reflexivity | exact He].
Qed.

End AuditWhole.

Section Quiet.
Variable w : World.

Lemma quiet_ret {A} (a : A) : quiet (ret a).
Proof. intros s. split; [reflexivity|discriminate]. Qed.

Lemma quiet_bind {A B} (m : M A) (k : A -> M B) :
  quiet m -> (forall a, quiet (k a)) -> quiet (bind m k).
Proof.
  intros Hm Hk s. unfold bind. destruct (Hm s) as [He Hx].
  destruct (m s) as [[a|c|e] s1]; simpl in *.
  - destruct (Hk a s1) as [He' Hx']. split; [congruence|exact Hx'].
  - exfalso. now apply (Hx c).
  - split; [exact He|discriminate].
Qed.

Lemma quiet_print kd t : quiet (print kd t).
Proof. intros s. split; [reflexivity|discriminate]. Qed.

Lemma quiet_which cmd : quiet (which w cmd).
Proof. intros s. split; [reflexivity|discriminate]. Qed.

Lemma quiet_get_last_headers : quiet get_last_headers.
Proof. intros s. split; [reflexivity|discriminate]. Qed.

Lemma quiet_subprocess_call argv : quiet (subprocess_call w argv).
Proof.
  intros s. unfold subprocess_call.
  destruct (call_at w (tick s) argv); (split; [reflexivity|discriminate]).
Qed.

Lemma quiet_when c body : quiet body -> quiet (when c body).
Proof. destruct c; simpl; auto using quiet_ret. Qed.

Lemma quiet_advanced_diagnostics : quiet (advanced_diagnostics w).
Proof.
  unfold advanced_diagnostics.
  repeat first
    [ apply quiet_ret | apply quiet_print | apply quiet_which
    | apply quiet_subprocess_call | apply quiet_when
    | apply quiet_bind; [|intros] ].
Qed.

Lemma quiet_debug_info : quiet (debug_info w).
Proof.
  unfold debug_info.
  repeat first
    [ apply quiet_ret | apply quiet_print | apply quiet_get_last_headers
    | apply quiet_subprocess_call | apply quiet_when
    | apply quiet_bind; [|intros] ].
Qed.

(** The end of [main]: the optional stages, then [sys.exit]. *)
Lemma optional_stages_exit advanced debug s c :
  fst ((when advanced (advanced_diagnostics w) ;;
        when debug (debug_info w) ;;
        sys_exit (A := unit)) s) = Exit c ->
  c = exit_code s.
Proof.
  unfold bind.
  destruct (quiet_when advanced _ quiet_advanced_diagnostics s) as [He Hx].
  destruct (when advanced (advanced_diagnostics w) s) as [[u|c0|e] s1];
    simpl in *; [|intros H; now apply Hx in H|discriminate].
  destruct (quiet_when debug _ quiet_debug_info s1) as [He' Hx'].
  destruct (when debug (debug_info w) s1) as [[u'|c1|e'] s2];
    simpl in *; [|intros H; now apply Hx' in H|discriminate].
  intros H. inversion H. congruence.
Qed.

(** The two flags add output only.  A run that reaches [sys.exit] with
    [--advanced] or [--debug] exits with the status the same run has
    without them. *)
Theorem flags_keep_exit_status advanced debug c :
  fst (main w advanced debug init) = Exit c ->
  fst (main w false false init) = Exit c.
Proof.
  unfold main, bind.
  destruct (self_test w init) as [[u|c0|e] s1]; [|auto|auto].
  destruct (nameserver_sanity w s1) as [[ns|c0|e] s2]; [|auto|auto].
  destruct (dns_audit w ns s2) as [[u2|c0|e] s3]; [|auto|auto].
  destruct (root_a_record_check w s3) as [[mode|c0|e] s4]; [|auto|auto].
  destruct (redirect_check w mode s4) as [[u4|c0|e] s5]; [|auto|auto].
  destruct (https_status w s5) as [[u5|c0|e] s6]; [|auto|auto].
  intros H.
  pose proof (optional_stages_exit advanced debug s6 c) as Hc.
  unfold bind in Hc. specialize (Hc H). subst c. reflexivity.
Qed.

End Quiet.

Lemma flags_keep_exit_status_witness :
  fst (main healthy true true init) = Exit 0%Z /\
  fst (main healthy false false init) = Exit 0%Z.
Proof.
  assert (H : fst (main healthy true true init) = Exit 0%Z) by reflexivity.
  split; [exact H|].
  apply (flags_keep_exit_status healthy true true 0%Z H).
Defined.
